(** * Ax: benchmark metrics and the JSON storage registries

    A shallow embedding of
    - [ax/benchmark/metrics/benchmark.py]: the classes [BenchmarkMetric] and
      [GroundTruthBenchmarkMetric];
    - [ax/storage/json_store/registry.py]: the four registry tables of the
      JSON store.

    Python objects live in a heap and are handled through references, so that
    [is] (reference identity) and [==] on attributes are told apart.  Calls
    that leave the module ([_fetch_trial_data]) are recorded in a call log. *)

From Stdlib Require Import ZArith.
From stdpp Require Import base tactics option list strings gmap.

Local Open Scope string_scope.

(** ** Python values passed as [**kwargs] *)

Inductive PyVal : Type :=
  | VNone
  | VBool (b : bool)
  | VInt (z : Z)
  | VStr (s : string).

(** * benchmark.py *)

Module benchmark.

(** ** Metric objects *)

(** The two classes of benchmark.py.  [GroundTruthBenchmarkMetric] is declared
    as a subclass of [BenchmarkMetric]. *)
Inductive MetricClass : Type :=
  | BenchmarkMetric
  | GroundTruthBenchmarkMetric.

#[global] Instance MetricClass_eq_dec : EqDecision MetricClass.
Proof. solve_decision. Defined.

(** [cls.__name__] *)
Definition class_name (c : MetricClass) : string :=
  match c with
  | BenchmarkMetric => "BenchmarkMetric"
  | GroundTruthBenchmarkMetric => "GroundTruthBenchmarkMetric"
  end.

(** [issubclass(c, GroundTruthBenchmarkMetric)] *)
Definition is_ground_truth (c : MetricClass) : bool :=
  match c with
  | BenchmarkMetric => false
  | GroundTruthBenchmarkMetric => true
  end.

(** A reference to an object: its position in the heap. *)
Definition loc : Type := nat.

(** The instance attributes set by the two [__init__] methods, with the types
    of their annotations.  [original_metric] exists only on instances of
    [GroundTruthBenchmarkMetric]; it holds a reference, not a copy. *)
Record MetricObj : Type := mkMetric {
  py_class : MetricClass;
  name : string;
  lower_is_better : bool;
  observe_noise_sd : bool;
  outcome_index : option Z;
  original_metric : option loc
}.

#[global] Instance MetricObj_eq_dec : EqDecision MetricObj.
Proof. solve_decision. Defined.

(** ** Exceptions *)

(** The only exception raised in benchmark.py.  Its message is the f-string
    [Arguments {set(kwargs)} are not supported in
    {self.__class__.__name__}.fetch_trial_data.]; the two interpolated values
    are kept as they are. *)
Inductive PyExc : Type :=
  | NotImplementedError (arguments : gset string) (class_of_self : string).

Section metrics.

(** [ax.core.base_trial.BaseTrial] and [ax.core.metric.MetricFetchResult]
    are used as opaque types by benchmark.py. *)
Context {BaseTrial MetricFetchResult : Type}.

(** One call of the Fetch Bridge, with its five keyword arguments. *)
Record BridgeCall : Type := mkCall {
  call_trial : BaseTrial;
  call_metric_name : string;
  call_outcome_index : option Z;
  call_include_noise_sd : bool;
  call_ground_truth : bool
}.

(** The state a run of the module can read or change: the objects, and the
    calls made to the Fetch Bridge so far, oldest first. *)
Record World : Type := mkWorld {
  heap : list MetricObj;
  bridge_calls : list BridgeCall
}.

(** How a call ends.  [Stuck] is not a Python outcome: it marks the use of a
    reference that is not in the heap, which no Python run can hold. *)
Inductive Outcome (A : Type) : Type :=
  | Return (a : A)
  | Raise (e : PyExc)
  | Stuck.
#[global] Arguments Return {A} a.
#[global] Arguments Raise {A} e.
#[global] Arguments Stuck {A}.

Definition M (A : Type) : Type := World -> Outcome A * World.

Definition ret {A} (a : A) : M A := fun w => (Return a, w).

Definition bind {A B} (m : M A) (k : A -> M B) : M B :=
  fun w =>
    match m w with
    | (Return a, w') => k a w'
    | (Raise e, w') => (Raise e, w')
    | (Stuck, w') => (Stuck, w')
    end.

Definition raise {A} (e : PyExc) : M A := fun w => (Raise e, w).

Notation "'do' x <- m ; k" := (bind m (fun x => k))
  (at level 10, x name, m at level 100, k at level 200).
Notation "m ;; k" := (bind m (fun _ => k))
  (at level 100, k at level 200, right associativity).

(** Reading the object behind a reference. *)
Definition deref (l : loc) : M MetricObj :=
  fun w =>
    match heap w !! l with
    | Some o => (Return o, w)
    | None => (Stuck, w)
    end.

(** What the record of an object holds for an attribute that has not been
    written.  In Python reading such an attribute raises [AttributeError];
    here nothing is known about these values, so that whatever is proved of
    an attribute is proved of a value that [__init__] has written. *)
Variable unset : MetricObj.

(** [cls.__new__(cls)]: a new object of class [cls] at a reference that no
    live object has.  None of its attributes is written yet, and
    [original_metric := None] says that the attribute does not exist. *)
Definition new (cls : MetricClass) : M loc :=
  fun w =>
    (Return (length (heap w)),
     {| heap := heap w ++ [mkMetric cls (name unset) (lower_is_better unset)
                             (observe_noise_sd unset) (outcome_index unset)
                             None];
        bridge_calls := bridge_calls w |}).

(** [setattr(self, ..., v)]: the object is changed in place, so every holder
    of the reference sees the new value. *)
Definition setattr (self : loc) (f : MetricObj -> MetricObj) : M unit :=
  fun w =>
    match heap w !! self with
    | Some o =>
        (Return tt,
         {| heap := <[self := f o]> (heap w); bridge_calls := bridge_calls w |})
    | None => (Stuck, w)
    end.

Definition set_name (v : string) (o : MetricObj) : MetricObj :=
  mkMetric (py_class o) v (lower_is_better o) (observe_noise_sd o)
    (outcome_index o) (original_metric o).

Definition set_lower_is_better (v : bool) (o : MetricObj) : MetricObj :=
  mkMetric (py_class o) (name o) v (observe_noise_sd o)
    (outcome_index o) (original_metric o).

Definition set_observe_noise_sd (v : bool) (o : MetricObj) : MetricObj :=
  mkMetric (py_class o) (name o) (lower_is_better o) v
    (outcome_index o) (original_metric o).

Definition set_outcome_index (v : option Z) (o : MetricObj) : MetricObj :=
  mkMetric (py_class o) (name o) (lower_is_better o) (observe_noise_sd o)
    v (original_metric o).

Definition set_original_metric (v : loc) (o : MetricObj) : MetricObj :=
  mkMetric (py_class o) (name o) (lower_is_better o) (observe_noise_sd o)
    (outcome_index o) (Some v).

(** *** What benchmark.py imports *)

(** The answers of the data source behind the Fetch Bridge: they may depend
    on the calls made before. *)
Variable bridge_reply : list BridgeCall -> BridgeCall -> MetricFetchResult.

(** Modelled from the spec: [ax/benchmark/metrics/utils.py] is absent.  Spec
    6, Fetch Bridge contract: [fetch(trial, metric_name, outcome_index,
    include_noise_sd, ground_truth) -> FetchResult], a result that is a value
    (records or a fetch failure), never an exception.  Each call is appended
    to the log. *)
Definition _fetch_trial_data (trial : BaseTrial) (metric_name : string)
    (outcome_index : option Z) (include_noise_sd ground_truth : bool)
    : M MetricFetchResult :=
  fun w =>
    let c := mkCall trial metric_name outcome_index include_noise_sd
               ground_truth in
    (Return (bridge_reply (bridge_calls w) c),
     {| heap := heap w; bridge_calls := bridge_calls w ++ [c] |}).

(** The naming convention of ground-truth metrics. *)
Variables ground_truth_prefix ground_truth_suffix : string.

(** Modelled from the spec: [GroundTruthMetricMixin.get_ground_truth_name]
    is in [ax/benchmark/metrics/base.py], which is absent.  Spec 3: a name
    derived deterministically from its original metric's name (prefix/suffix
    convention). *)
Definition get_ground_truth_name (metric : MetricObj) : string :=
  ground_truth_prefix ++ name metric ++ ground_truth_suffix.

(** Modelled from the spec: [BenchmarkMetricBase.__init__] is in
    [ax/benchmark/metrics/base.py], which is absent.  Spec 3 lists [name] and
    [lower_is_better] among the attributes of a metric; the base initialiser
    is given both and records them on [self]. *)
Definition BenchmarkMetricBase__init__ (self : loc) (name : string)
    (lower_is_better : bool) : M unit :=
  setattr self (set_name name) ;;
  setattr self (set_lower_is_better lower_is_better).

(** *** class BenchmarkMetric *)

(** [BenchmarkMetric.__init__(self, name, lower_is_better,
    observe_noise_sd=True, outcome_index=None)] *)
Definition BenchmarkMetric__init__ (self : loc) (name : string)
    (lower_is_better observe_noise_sd : bool) (outcome_index : option Z)
    : M unit :=
  BenchmarkMetricBase__init__ self name lower_is_better ;;
  setattr self (set_lower_is_better lower_is_better) ;;
  setattr self (set_observe_noise_sd observe_noise_sd) ;;
  setattr self (set_outcome_index outcome_index).

(** The defaults of the two optional parameters. *)
Definition default_observe_noise_sd : bool := true.
Definition default_outcome_index : option Z := None.

(** The call [BenchmarkMetric(name=..., ...)] *)
Definition BenchmarkMetric_new (name : string)
    (lower_is_better observe_noise_sd : bool) (outcome_index : option Z)
    : M loc :=
  do self <- new BenchmarkMetric ;
  BenchmarkMetric__init__ self name lower_is_better observe_noise_sd
    outcome_index ;;
  ret self.

(** [BenchmarkMetric.fetch_trial_data(self, trial, **kwargs)] *)
Definition BenchmarkMetric_fetch_trial_data (self : loc) (trial : BaseTrial)
    (kwargs : gmap string PyVal) : M MetricFetchResult :=
  do this <- deref self ;
  if bool_decide (0 < size kwargs) then
    raise (NotImplementedError (dom kwargs) (class_name (py_class this)))
  else
    _fetch_trial_data trial (name this) (outcome_index this)
      (observe_noise_sd this) false.

(** *** class GroundTruthBenchmarkMetric(BenchmarkMetric, GroundTruthMetricMixin) *)

(** [GroundTruthBenchmarkMetric.__init__(self, original_metric)].  The
    arguments of [super().__init__] are read from [original_metric] before
    [self] is written. *)
Definition GroundTruthBenchmarkMetric__init__ (self original_metric : loc)
    : M unit :=
  do orig <- deref original_metric ;
  BenchmarkMetric__init__ self (get_ground_truth_name orig)
    (lower_is_better orig) false (outcome_index orig) ;;
  setattr self (set_original_metric original_metric).

(** The call [GroundTruthBenchmarkMetric(original_metric=...)].  The argument
    is evaluated before the object is made, so it refers to an object that
    is already there. *)
Definition GroundTruthBenchmarkMetric_new (original_metric : loc) : M loc :=
  deref original_metric ;;
  do self <- new GroundTruthBenchmarkMetric ;
  GroundTruthBenchmarkMetric__init__ self original_metric ;;
  ret self.

(** [GroundTruthBenchmarkMetric.fetch_trial_data(self, trial, **kwargs)] *)
Definition GroundTruthBenchmarkMetric_fetch_trial_data (self : loc)
    (trial : BaseTrial) (kwargs : gmap string PyVal) : M MetricFetchResult :=
  do this <- deref self ;
  if bool_decide (0 < size kwargs) then
    raise (NotImplementedError (dom kwargs) (class_name (py_class this)))
  else
    _fetch_trial_data trial (name this) (outcome_index this) false true.

(** [GroundTruthBenchmarkMetric.make_ground_truth_metric(self)] *)
Definition GroundTruthBenchmarkMetric_make_ground_truth_metric (self : loc)
    : M loc :=
  ret self.

(** [BenchmarkMetric.make_ground_truth_metric(self)] *)
Definition BenchmarkMetric_make_ground_truth_metric (self : loc) : M loc :=
  GroundTruthBenchmarkMetric_new self.

(** *** Method calls *)

(** [self.fetch_trial_data(trial, **kwargs)]: the method of the class of
    [self]. *)
Definition fetch_trial_data (self : loc) (trial : BaseTrial)
    (kwargs : gmap string PyVal) : M MetricFetchResult :=
  do this <- deref self ;
  match py_class this with
  | BenchmarkMetric => BenchmarkMetric_fetch_trial_data self trial kwargs
  | GroundTruthBenchmarkMetric =>
      GroundTruthBenchmarkMetric_fetch_trial_data self trial kwargs
  end.

(** [self.make_ground_truth_metric()]: the method of the class of [self]. *)
Definition make_ground_truth_metric (self : loc) : M loc :=
  do this <- deref self ;
  match py_class this with
  | BenchmarkMetric => BenchmarkMetric_make_ground_truth_metric self
  | GroundTruthBenchmarkMetric =>
      GroundTruthBenchmarkMetric_make_ground_truth_metric self
  end.

(** The expression of the idempotence test,
    [metric.make_ground_truth_metric().make_ground_truth_metric()
       is metric.make_ground_truth_metric()]:
    the left operand is evaluated first, and [is] compares references. *)
Definition ground_truth_twice_is_once (metric : loc) : M bool :=
  do g <- make_ground_truth_metric metric ;
  do left <- make_ground_truth_metric g ;
  do right <- make_ground_truth_metric metric ;
  ret (bool_decide (left = right)).

(** The object built by [GroundTruthBenchmarkMetric(original_metric=m)] when
    [m] refers to [o], once [__init__] has returned. *)
Definition ground_truth_of (m : loc) (o : MetricObj) : MetricObj :=
  mkMetric GroundTruthBenchmarkMetric (get_ground_truth_name o)
    (lower_is_better o) false (outcome_index o) (Some m).

(** *** Runs of the module *)

(** What a client of benchmark.py can call. *)
Inductive Call : Type :=
  | Call_BenchmarkMetric (name : string)
      (lower_is_better observe_noise_sd : bool) (outcome_index : option Z)
  | Call_GroundTruthBenchmarkMetric (original_metric : loc)
  | Call_fetch_trial_data (self : loc) (trial : BaseTrial)
      (kwargs : gmap string PyVal)
  | Call_make_ground_truth_metric (self : loc).

Definition perform (c : Call) : M unit :=
  match c with
  | Call_BenchmarkMetric n l s i => BenchmarkMetric_new n l s i ;; ret tt
  | Call_GroundTruthBenchmarkMetric m =>
      GroundTruthBenchmarkMetric_new m ;; ret tt
  | Call_fetch_trial_data self trial kwargs =>
      fetch_trial_data self trial kwargs ;; ret tt
  | Call_make_ground_truth_metric self =>
      make_ground_truth_metric self ;; ret tt
  end.

(** The worlds a Python run can be in: it starts with no object, and every
    call is made on references it holds, so none is [Stuck]. *)
Inductive reachable : World -> Prop :=
  | reachable_start : reachable (mkWorld [] [])
  | reachable_call w c r w' :
      reachable w -> perform c w = (r, w') -> r <> Stuck -> reachable w'.

End metrics.

End benchmark.

(** * registry.py *)

Module registry.

(** A class object, named by the module it is imported from and the name it
    is imported under.  No import of registry.py renames ([import ... as]),
    so the second component is the [__name__] of the class, and two imports
    of distinct names are taken to give distinct class objects. *)
Record PyClass : Type := Class {
  class_module : string;
  class_name : string
}.

#[global] Instance PyClass_eq_dec : EqDecision PyClass.
Proof. solve_decision. Defined.

(** An imported function: the encoders and the two class decoders. *)
Record PyFunction : Type := Function {
  function_module : string;
  function_name : string
}.

#[global] Instance PyFunction_eq_dec : EqDecision PyFunction.
Proof. solve_decision. Defined.

(** ** Python dictionaries

    A [dict] keeps its keys in the order of their first insertion, and the
    class encoder registry is iterated in that order, so a dictionary is an
    association list with one binding per key. *)
Definition dict (K V : Type) : Type := list (K * V).

(** [d[k] = v]: the value of an existing key is replaced where it stands, a
    new key goes to the end. *)
Fixpoint dict_setitem {K V} `{EqDecision K} (k : K) (v : V) (d : dict K V)
    : dict K V :=
  match d with
  | [] => [(k, v)]
  | (k', v') :: d' =>
      if decide (k = k') then (k', v) :: d'
      else (k', v') :: dict_setitem k v d'
  end.

(** A dictionary display [{k1: v1, k2: v2, ...}]: the items are inserted from
    left to right. *)
Definition dict_display {K V} `{EqDecision K} (items : list (K * V))
    : dict K V :=
  foldl (fun d kv => dict_setitem kv.1 kv.2 d) [] items.

(** [d.get(k)] *)
Fixpoint dict_get {K V} `{EqDecision K} (k : K) (d : dict K V) : option V :=
  match d with
  | [] => None
  | (k', v) :: d' => if decide (k = k') then Some v else dict_get k d'
  end.

(** [list(d)]: the keys, in iteration order. *)
Definition dict_keys {K V} (d : dict K V) : list K := d.*1.

(** ** The imports of registry.py *)

Definition SimpleBenchmarkProblem : PyClass :=
  Class "ax.benchmark.benchmark_problem" "SimpleBenchmarkProblem".
Definition BenchmarkMethod : PyClass :=
  Class "ax.benchmark2.benchmark_method" "BenchmarkMethod".
Definition MultiObjectiveBenchmarkProblem : PyClass :=
  Class "ax.benchmark2.benchmark_problem" "MultiObjectiveBenchmarkProblem".
Definition SingleObjectiveBenchmarkProblem : PyClass :=
  Class "ax.benchmark2.benchmark_problem" "SingleObjectiveBenchmarkProblem".
Definition BenchmarkProblem : PyClass :=
  Class "ax.benchmark2.benchmark_problem" "BenchmarkProblem".
Definition AggregatedBenchmarkResult : PyClass :=
  Class "ax.benchmark2.benchmark_result" "AggregatedBenchmarkResult".
Definition BenchmarkResult : PyClass :=
  Class "ax.benchmark2.benchmark_result" "BenchmarkResult".
Definition ScoredBenchmarkResult : PyClass :=
  Class "ax.benchmark2.benchmark_result" "ScoredBenchmarkResult".
Definition ObservationFeatures : PyClass :=
  Class "ax.core" "ObservationFeatures".
Definition Arm : PyClass :=
  Class "ax.core.arm" "Arm".
Definition TrialStatus : PyClass :=
  Class "ax.core.base_trial" "TrialStatus".
Definition AbandonedArm : PyClass :=
  Class "ax.core.batch_trial" "AbandonedArm".
Definition BatchTrial : PyClass :=
  Class "ax.core.batch_trial" "BatchTrial".
Definition GeneratorRunStruct : PyClass :=
  Class "ax.core.batch_trial" "GeneratorRunStruct".
Definition Data : PyClass :=
  Class "ax.core.data" "Data".
Definition DataType : PyClass :=
  Class "ax.core.experiment" "DataType".
Definition Experiment : PyClass :=
  Class "ax.core.experiment" "Experiment".
Definition GeneratorRun : PyClass :=
  Class "ax.core.generator_run" "GeneratorRun".
Definition MapData : PyClass :=
  Class "ax.core.map_data" "MapData".
Definition MapKeyInfo : PyClass :=
  Class "ax.core.map_data" "MapKeyInfo".
Definition MapMetric : PyClass :=
  Class "ax.core.map_metric" "MapMetric".
Definition Metric : PyClass :=
  Class "ax.core.metric" "Metric".
Definition MultiTypeExperiment : PyClass :=
  Class "ax.core.multi_type_experiment" "MultiTypeExperiment".
Definition MultiObjective : PyClass :=
  Class "ax.core.objective" "MultiObjective".
Definition Objective : PyClass :=
  Class "ax.core.objective" "Objective".
Definition ScalarizedObjective : PyClass :=
  Class "ax.core.objective" "ScalarizedObjective".
Definition MultiObjectiveOptimizationConfig : PyClass :=
  Class "ax.core.optimization_config" "MultiObjectiveOptimizationConfig".
Definition OptimizationConfig : PyClass :=
  Class "ax.core.optimization_config" "OptimizationConfig".
Definition ObjectiveThreshold : PyClass :=
  Class "ax.core.outcome_constraint" "ObjectiveThreshold".
Definition OutcomeConstraint : PyClass :=
  Class "ax.core.outcome_constraint" "OutcomeConstraint".
Definition ChoiceParameter : PyClass :=
  Class "ax.core.parameter" "ChoiceParameter".
Definition FixedParameter : PyClass :=
  Class "ax.core.parameter" "FixedParameter".
Definition ParameterType : PyClass :=
  Class "ax.core.parameter" "ParameterType".
Definition RangeParameter : PyClass :=
  Class "ax.core.parameter" "RangeParameter".
Definition OrderConstraint : PyClass :=
  Class "ax.core.parameter_constraint" "OrderConstraint".
Definition ParameterConstraint : PyClass :=
  Class "ax.core.parameter_constraint" "ParameterConstraint".
Definition SumConstraint : PyClass :=
  Class "ax.core.parameter_constraint" "SumConstraint".
Definition SearchSpace : PyClass :=
  Class "ax.core.search_space" "SearchSpace".
Definition HierarchicalSearchSpace : PyClass :=
  Class "ax.core.search_space" "HierarchicalSearchSpace".
Definition Trial : PyClass :=
  Class "ax.core.trial" "Trial".
Definition ComparisonOp : PyClass :=
  Class "ax.core.types" "ComparisonOp".
Definition PercentileEarlyStoppingStrategy : PyClass :=
  Class "ax.early_stopping.strategies" "PercentileEarlyStoppingStrategy".
Definition ThresholdEarlyStoppingStrategy : PyClass :=
  Class "ax.early_stopping.strategies" "ThresholdEarlyStoppingStrategy".
Definition AndEarlyStoppingStrategy : PyClass :=
  Class "ax.early_stopping.strategies.logical" "AndEarlyStoppingStrategy".
Definition OrEarlyStoppingStrategy : PyClass :=
  Class "ax.early_stopping.strategies.logical" "OrEarlyStoppingStrategy".
Definition BotorchTestProblemMetric : PyClass :=
  Class "ax.metrics.botorch_test_problem" "BotorchTestProblemMetric".
Definition AugmentedBraninMetric : PyClass :=
  Class "ax.metrics.branin" "AugmentedBraninMetric".
Definition BraninMetric : PyClass :=
  Class "ax.metrics.branin" "BraninMetric".
Definition NegativeBraninMetric : PyClass :=
  Class "ax.metrics.branin" "NegativeBraninMetric".
Definition BraninTimestampMapMetric : PyClass :=
  Class "ax.metrics.branin_map" "BraninTimestampMapMetric".
Definition ChemistryProblemType : PyClass :=
  Class "ax.metrics.chemistry" "ChemistryProblemType".
Definition ChemistryMetric : PyClass :=
  Class "ax.metrics.chemistry" "ChemistryMetric".
Definition FactorialMetric : PyClass :=
  Class "ax.metrics.factorial" "FactorialMetric".
Definition AugmentedHartmann6Metric : PyClass :=
  Class "ax.metrics.hartmann6" "AugmentedHartmann6Metric".
Definition Hartmann6Metric : PyClass :=
  Class "ax.metrics.hartmann6" "Hartmann6Metric".
Definition L2NormMetric : PyClass :=
  Class "ax.metrics.l2norm" "L2NormMetric".
Definition NoisyFunctionMetric : PyClass :=
  Class "ax.metrics.noisy_function" "NoisyFunctionMetric".
Definition SklearnMetric : PyClass :=
  Class "ax.metrics.sklearn" "SklearnMetric".
Definition SklearnDataset : PyClass :=
  Class "ax.metrics.sklearn" "SklearnDataset".
Definition SklearnModelType : PyClass :=
  Class "ax.metrics.sklearn" "SklearnModelType".
Definition Models : PyClass :=
  Class "ax.modelbridge.factory" "Models".
Definition GenerationStep : PyClass :=
  Class "ax.modelbridge.generation_strategy" "GenerationStep".
Definition GenerationStrategy : PyClass :=
  Class "ax.modelbridge.generation_strategy" "GenerationStrategy".
Definition Transform : PyClass :=
  Class "ax.modelbridge.transforms.base" "Transform".
Definition WinsorizationConfig : PyClass :=
  Class "ax.modelbridge.transforms.winsorize" "WinsorizationConfig".
Definition Acquisition : PyClass :=
  Class "ax.models.torch.botorch_modular.acquisition" "Acquisition".
Definition ListSurrogate : PyClass :=
  Class "ax.models.torch.botorch_modular.list_surrogate" "ListSurrogate".
Definition BoTorchModel : PyClass :=
  Class "ax.models.torch.botorch_modular.model" "BoTorchModel".
Definition Surrogate : PyClass :=
  Class "ax.models.torch.botorch_modular.surrogate" "Surrogate".
Definition BotorchTestProblemRunner : PyClass :=
  Class "ax.runners.botorch_test_problem" "BotorchTestProblemRunner".
Definition SyntheticRunner : PyClass :=
  Class "ax.runners.synthetic" "SyntheticRunner".
Definition SchedulerOptions : PyClass :=
  Class "ax.service.utils.scheduler_options" "SchedulerOptions".
Definition TrialType : PyClass :=
  Class "ax.service.utils.scheduler_options" "TrialType".
Definition class_from_json : PyFunction :=
  Function "ax.storage.json_store.decoders" "class_from_json".
Definition transform_type_from_json : PyFunction :=
  Function "ax.storage.json_store.decoders" "transform_type_from_json".
Definition arm_to_dict : PyFunction :=
  Function "ax.storage.json_store.encoders" "arm_to_dict".
Definition batch_to_dict : PyFunction :=
  Function "ax.storage.json_store.encoders" "batch_to_dict".
Definition benchmark_problem_to_dict : PyFunction :=
  Function "ax.storage.json_store.encoders" "benchmark_problem_to_dict".
Definition botorch_component_to_dict : PyFunction :=
  Function "ax.storage.json_store.encoders" "botorch_component_to_dict".
Definition botorch_model_to_dict : PyFunction :=
  Function "ax.storage.json_store.encoders" "botorch_model_to_dict".
Definition botorch_modular_to_dict : PyFunction :=
  Function "ax.storage.json_store.encoders" "botorch_modular_to_dict".
Definition choice_parameter_to_dict : PyFunction :=
  Function "ax.storage.json_store.encoders" "choice_parameter_to_dict".
Definition data_to_dict : PyFunction :=
  Function "ax.storage.json_store.encoders" "data_to_dict".
Definition experiment_to_dict : PyFunction :=
  Function "ax.storage.json_store.encoders" "experiment_to_dict".
Definition fixed_parameter_to_dict : PyFunction :=
  Function "ax.storage.json_store.encoders" "fixed_parameter_to_dict".
Definition generation_step_to_dict : PyFunction :=
  Function "ax.storage.json_store.encoders" "generation_step_to_dict".
Definition generation_strategy_to_dict : PyFunction :=
  Function "ax.storage.json_store.encoders" "generation_strategy_to_dict".
Definition generator_run_to_dict : PyFunction :=
  Function "ax.storage.json_store.encoders" "generator_run_to_dict".
Definition map_data_to_dict : PyFunction :=
  Function "ax.storage.json_store.encoders" "map_data_to_dict".
Definition map_key_info_to_dict : PyFunction :=
  Function "ax.storage.json_store.encoders" "map_key_info_to_dict".
Definition metric_to_dict : PyFunction :=
  Function "ax.storage.json_store.encoders" "metric_to_dict".
Definition multi_objective_optimization_config_to_dict : PyFunction :=
  Function "ax.storage.json_store.encoders" "multi_objective_optimization_config_to_dict".
Definition multi_objective_to_dict : PyFunction :=
  Function "ax.storage.json_store.encoders" "multi_objective_to_dict".
Definition multi_type_experiment_to_dict : PyFunction :=
  Function "ax.storage.json_store.encoders" "multi_type_experiment_to_dict".
Definition objective_to_dict : PyFunction :=
  Function "ax.storage.json_store.encoders" "objective_to_dict".
Definition observation_features_to_dict : PyFunction :=
  Function "ax.storage.json_store.encoders" "observation_features_to_dict".
Definition optimization_config_to_dict : PyFunction :=
  Function "ax.storage.json_store.encoders" "optimization_config_to_dict".
Definition order_parameter_constraint_to_dict : PyFunction :=
  Function "ax.storage.json_store.encoders" "order_parameter_constraint_to_dict".
Definition outcome_constraint_to_dict : PyFunction :=
  Function "ax.storage.json_store.encoders" "outcome_constraint_to_dict".
Definition parameter_constraint_to_dict : PyFunction :=
  Function "ax.storage.json_store.encoders" "parameter_constraint_to_dict".
Definition percentile_early_stopping_strategy_to_dict : PyFunction :=
  Function "ax.storage.json_store.encoders" "percentile_early_stopping_strategy_to_dict".
Definition range_parameter_to_dict : PyFunction :=
  Function "ax.storage.json_store.encoders" "range_parameter_to_dict".
Definition runner_to_dict : PyFunction :=
  Function "ax.storage.json_store.encoders" "runner_to_dict".
Definition scalarized_objective_to_dict : PyFunction :=
  Function "ax.storage.json_store.encoders" "scalarized_objective_to_dict".
Definition search_space_to_dict : PyFunction :=
  Function "ax.storage.json_store.encoders" "search_space_to_dict".
Definition sum_parameter_constraint_to_dict : PyFunction :=
  Function "ax.storage.json_store.encoders" "sum_parameter_constraint_to_dict".
Definition surrogate_to_dict : PyFunction :=
  Function "ax.storage.json_store.encoders" "surrogate_to_dict".
Definition transform_type_to_dict : PyFunction :=
  Function "ax.storage.json_store.encoders" "transform_type_to_dict".
Definition trial_to_dict : PyFunction :=
  Function "ax.storage.json_store.encoders" "trial_to_dict".
Definition threshold_early_stopping_strategy_to_dict : PyFunction :=
  Function "ax.storage.json_store.encoders" "threshold_early_stopping_strategy_to_dict".
Definition winsorization_config_to_dict : PyFunction :=
  Function "ax.storage.json_store.encoders" "winsorization_config_to_dict".
Definition logical_early_stopping_strategy_to_dict : PyFunction :=
  Function "ax.storage.json_store.encoders" "logical_early_stopping_strategy_to_dict".
Definition DomainType : PyClass :=
  Class "ax.storage.utils" "DomainType".
Definition ParameterConstraintType : PyClass :=
  Class "ax.storage.utils" "ParameterConstraintType".
Definition AcquisitionFunction : PyClass :=
  Class "botorch.acquisition.acquisition" "AcquisitionFunction".
Definition Model : PyClass :=
  Class "botorch.models.model" "Model".
Definition Interval : PyClass :=
  Class "gpytorch.constraints" "Interval".
Definition Likelihood : PyClass :=
  Class "gpytorch.likelihoods.likelihood" "Likelihood".
Definition MarginalLogLikelihood : PyClass :=
  Class "gpytorch.mlls.marginal_log_likelihood" "MarginalLogLikelihood".
Definition GammaPrior : PyClass :=
  Class "gpytorch.priors.torch_priors" "GammaPrior".
(** [torch.nn.Module]; [Module] is a keyword of Rocq. *)
Definition Module_ : PyClass :=
  Class "torch.nn" "Module".

(** ** The four tables *)

Definition CORE_ENCODER_REGISTRY : dict PyClass PyFunction :=
  dict_display [
    (Arm, arm_to_dict);
    (AndEarlyStoppingStrategy, logical_early_stopping_strategy_to_dict);
    (AugmentedBraninMetric, metric_to_dict);
    (AugmentedHartmann6Metric, metric_to_dict);
    (BatchTrial, batch_to_dict);
    (BoTorchModel, botorch_model_to_dict);
    (BotorchTestProblemMetric, metric_to_dict);
    (BotorchTestProblemRunner, runner_to_dict);
    (BraninMetric, metric_to_dict);
    (BraninTimestampMapMetric, metric_to_dict);
    (ChoiceParameter, choice_parameter_to_dict);
    (Data, data_to_dict);
    (Experiment, experiment_to_dict);
    (FactorialMetric, metric_to_dict);
    (FixedParameter, fixed_parameter_to_dict);
    (GammaPrior, botorch_component_to_dict);
    (GenerationStep, generation_step_to_dict);
    (GenerationStrategy, generation_strategy_to_dict);
    (GeneratorRun, generator_run_to_dict);
    (Hartmann6Metric, metric_to_dict);
    (Interval, botorch_component_to_dict);
    (ListSurrogate, surrogate_to_dict);
    (L2NormMetric, metric_to_dict);
    (MapData, map_data_to_dict);
    (MapKeyInfo, map_key_info_to_dict);
    (MapMetric, metric_to_dict);
    (Metric, metric_to_dict);
    (MultiObjective, multi_objective_to_dict);
    (MultiObjectiveOptimizationConfig, multi_objective_optimization_config_to_dict);
    (MultiTypeExperiment, multi_type_experiment_to_dict);
    (PercentileEarlyStoppingStrategy, percentile_early_stopping_strategy_to_dict);
    (SklearnMetric, metric_to_dict);
    (ChemistryMetric, metric_to_dict);
    (NegativeBraninMetric, metric_to_dict);
    (NoisyFunctionMetric, metric_to_dict);
    (Objective, objective_to_dict);
    (ObjectiveThreshold, outcome_constraint_to_dict);
    (OptimizationConfig, optimization_config_to_dict);
    (OrEarlyStoppingStrategy, logical_early_stopping_strategy_to_dict);
    (OrderConstraint, order_parameter_constraint_to_dict);
    (OutcomeConstraint, outcome_constraint_to_dict);
    (ParameterConstraint, parameter_constraint_to_dict);
    (RangeParameter, range_parameter_to_dict);
    (ScalarizedObjective, scalarized_objective_to_dict);
    (SearchSpace, search_space_to_dict);
    (HierarchicalSearchSpace, search_space_to_dict);
    (SimpleBenchmarkProblem, benchmark_problem_to_dict);
    (SumConstraint, sum_parameter_constraint_to_dict);
    (Surrogate, surrogate_to_dict);
    (SyntheticRunner, runner_to_dict);
    (ThresholdEarlyStoppingStrategy, threshold_early_stopping_strategy_to_dict);
    (Trial, trial_to_dict);
    (ObservationFeatures, observation_features_to_dict);
    (WinsorizationConfig, winsorization_config_to_dict)
  ].

Definition CORE_CLASS_ENCODER_REGISTRY : dict PyClass PyFunction :=
  dict_display [
    (Acquisition, botorch_modular_to_dict);
    (AcquisitionFunction, botorch_modular_to_dict);
    (Likelihood, botorch_modular_to_dict);
    (Module_, botorch_modular_to_dict);
    (MarginalLogLikelihood, botorch_modular_to_dict);
    (Model, botorch_modular_to_dict);
    (Transform, transform_type_to_dict)
  ].

Definition CORE_DECODER_REGISTRY : dict string PyClass :=
  dict_display [
    ("AbandonedArm", AbandonedArm);
    ("AndEarlyStoppingStrategy", AndEarlyStoppingStrategy);
    ("AugmentedBraninMetric", AugmentedBraninMetric);
    ("AugmentedHartmann6Metric", AugmentedHartmann6Metric);
    ("Arm", Arm);
    ("BatchTrial", BatchTrial);
    ("AggregatedBenchmarkResult", AggregatedBenchmarkResult);
    ("BenchmarkMethod", BenchmarkMethod);
    ("BenchmarkProblem", BenchmarkProblem);
    ("BenchmarkResult", BenchmarkResult);
    ("BoTorchModel", BoTorchModel);
    ("BotorchTestProblemMetric", BotorchTestProblemMetric);
    ("BotorchTestProblemRunner", BotorchTestProblemRunner);
    ("BraninMetric", BraninMetric);
    ("BraninTimestampMapMetric", BraninTimestampMapMetric);
    ("ChemistryMetric", ChemistryMetric);
    ("ChemistryProblemType", ChemistryProblemType);
    ("ChoiceParameter", ChoiceParameter);
    ("ComparisonOp", ComparisonOp);
    ("Data", Data);
    ("DataType", DataType);
    ("DomainType", DomainType);
    ("Experiment", Experiment);
    ("FactorialMetric", FactorialMetric);
    ("FixedParameter", FixedParameter);
    ("GammaPrior", GammaPrior);
    ("GenerationStrategy", GenerationStrategy);
    ("GenerationStep", GenerationStep);
    ("GeneratorRun", GeneratorRun);
    ("GeneratorRunStruct", GeneratorRunStruct);
    ("Hartmann6Metric", Hartmann6Metric);
    ("HierarchicalSearchSpace", HierarchicalSearchSpace);
    ("Interval", Interval);
    ("ListSurrogate", ListSurrogate);
    ("L2NormMetric", L2NormMetric);
    ("MapData", MapData);
    ("MapMetric", MapMetric);
    ("MapKeyInfo", MapKeyInfo);
    ("Metric", Metric);
    ("Models", Models);
    ("MultiObjective", MultiObjective);
    ("MultiObjectiveBenchmarkProblem", MultiObjectiveBenchmarkProblem);
    ("MultiObjectiveOptimizationConfig", MultiObjectiveOptimizationConfig);
    ("MultiTypeExperiment", MultiTypeExperiment);
    ("NegativeBraninMetric", NegativeBraninMetric);
    ("NoisyFunctionMetric", NoisyFunctionMetric);
    ("Objective", Objective);
    ("ObjectiveThreshold", ObjectiveThreshold);
    ("OptimizationConfig", OptimizationConfig);
    ("OrEarlyStoppingStrategy", OrEarlyStoppingStrategy);
    ("OrderConstraint", OrderConstraint);
    ("OutcomeConstraint", OutcomeConstraint);
    ("ParameterConstraint", ParameterConstraint);
    ("ParameterConstraintType", ParameterConstraintType);
    ("ParameterType", ParameterType);
    ("PercentileEarlyStoppingStrategy", PercentileEarlyStoppingStrategy);
    ("RangeParameter", RangeParameter);
    ("ScalarizedObjective", ScalarizedObjective);
    ("SchedulerOptions", SchedulerOptions);
    ("ScoredBenchmarkResult", ScoredBenchmarkResult);
    ("SearchSpace", SearchSpace);
    ("SimpleBenchmarkProblem", SimpleBenchmarkProblem);
    ("SingleObjectiveBenchmarkProblem", SingleObjectiveBenchmarkProblem);
    ("SklearnDataset", SklearnDataset);
    ("SklearnMetric", SklearnMetric);
    ("SklearnModelType", SklearnModelType);
    ("SumConstraint", SumConstraint);
    ("Surrogate", Surrogate);
    ("SyntheticRunner", SyntheticRunner);
    ("Trial", Trial);
    ("TrialType", TrialType);
    ("TrialStatus", TrialStatus);
    ("ThresholdEarlyStoppingStrategy", ThresholdEarlyStoppingStrategy);
    ("ObservationFeatures", ObservationFeatures);
    ("WinsorizationConfig", WinsorizationConfig)
  ].

Definition CORE_CLASS_DECODER_REGISTRY : dict string PyFunction :=
  dict_display [
    ("Type[Acquisition]", class_from_json);
    ("Type[AcquisitionFunction]", class_from_json);
    ("Type[Likelihood]", class_from_json);
    ("Type[Module]", class_from_json);
    ("Type[MarginalLogLikelihood]", class_from_json);
    ("Type[Model]", class_from_json);
    ("Type[Transform]", transform_type_from_json)
  ].

(** The discriminant of an encoded class reference, ["Type[<BaseName>]"],
    for the base class [B] (spec 6, encoded document wire shape). *)
Definition class_reference_name (B : PyClass) : string :=
  "Type[" ++ class_name B ++ "]".

End registry.

(** * A run of benchmark.py

    Trials are numbered, a fetch result is the list of (arm name, mean) it
    holds, and the data source answers every call with one record for the
    arm ["0_0"].  Ground-truth names are formed with an empty prefix and the
    suffix ["__GROUND_TRUTH"]. *)

Module example.

Import benchmark.

Definition Trial : Type := nat.
Definition FetchResult : Type := list (string * Z).

Definition reply (before : list (@BridgeCall Trial))
    (c : @BridgeCall Trial) : FetchResult :=
  [("0_0", Z.of_nat (length before))].

Definition prefix : string := "".
Definition suffix : string := "__GROUND_TRUTH".

(** Values for the attributes that are not written yet; none of them is
    given to a metric below. *)
Definition unset : MetricObj :=
  mkMetric BenchmarkMetric "<unset>" true true (Some 99%Z) None.

Definition start : @World Trial := mkWorld [] [].

(** [accuracy = BenchmarkMetric(name="accuracy", lower_is_better=False)] *)
Definition make_accuracy : @M Trial loc :=
  BenchmarkMetric_new unset "accuracy" false default_observe_noise_sd
    default_outcome_index.

(** The world after [accuracy] has been made: it is object 0. *)
Definition world_accuracy : @World Trial := (make_accuracy start).2.

(** The world after [accuracy.make_ground_truth_metric()]: the ground-truth
    metric is object 1. *)
Definition world_ground_truth : @World Trial :=
  (make_ground_truth_metric unset prefix suffix 0 world_accuracy).2.

(** The world after a third metric has been made, a plain [BenchmarkMetric]
    that is given the name of object 1. *)
Definition world_same_name : @World Trial :=
  (BenchmarkMetric_new unset "accuracy__GROUND_TRUTH" false true None
     world_ground_truth).2.

(** [fetch_trial_data(trial, extra_kw=1)] *)
Definition extra_kw : gmap string PyVal := {[ "extra_kw" := VInt 1 ]}.

End example.

(** * Properties of benchmark.py *)

Section benchmark_properties.

Import benchmark.

Context {BaseTrial MetricFetchResult : Type}.
Variable unset : MetricObj.
Variable bridge_reply :
  list (@BridgeCall BaseTrial) -> @BridgeCall BaseTrial -> MetricFetchResult.
Variables ground_truth_prefix ground_truth_suffix : string.

Abbreviation W := (@World BaseTrial).
Abbreviation BenchmarkMetric_new :=
  (benchmark.BenchmarkMetric_new (BaseTrial := BaseTrial) unset).
Abbreviation make_ground_truth_metric := (benchmark.make_ground_truth_metric
  (BaseTrial := BaseTrial) unset ground_truth_prefix ground_truth_suffix).
Abbreviation GroundTruthBenchmarkMetric_new :=
  (benchmark.GroundTruthBenchmarkMetric_new (BaseTrial := BaseTrial)
     unset ground_truth_prefix ground_truth_suffix).
Abbreviation ground_truth_twice_is_once :=
  (benchmark.ground_truth_twice_is_once (BaseTrial := BaseTrial)
     unset ground_truth_prefix ground_truth_suffix).
Abbreviation perform := (benchmark.perform (BaseTrial := BaseTrial)
  unset bridge_reply ground_truth_prefix ground_truth_suffix).
Abbreviation get_ground_truth_name := (benchmark.get_ground_truth_name
  ground_truth_prefix ground_truth_suffix).
Abbreviation ground_truth_of := (benchmark.ground_truth_of
  ground_truth_prefix ground_truth_suffix).
Abbreviation fetch_trial_data := (benchmark.fetch_trial_data bridge_reply).
Abbreviation reachable := (benchmark.reachable (BaseTrial := BaseTrial)
  unset bridge_reply ground_truth_prefix ground_truth_suffix).

Lemma bind_Return {A B} (m : M A) (k : A -> M B) (w w' : W) a :
  m w = (Return a, w') -> bind m k w = k a w'.
Proof. intros H. unfold bind. by rewrite H. Qed.

Lemma deref_Some (w : W) l o :
  heap w !! l = Some o -> deref l w = (Return o, w).
Proof. intros H. unfold deref. by rewrite H. Qed.

(** Writing an attribute of the newest object. *)
Lemma setattr_newest (h : list MetricObj) (cs : list BridgeCall) o f :
  setattr (length h) f (mkWorld (BaseTrial := BaseTrial) (h ++ [o]) cs)
  = (Return tt, mkWorld (h ++ [f o]) cs).
Proof.
  unfold setattr; simpl.
  rewrite lookup_app_r, Nat.sub_diag by lia; simpl.
  rewrite insert_app_r_alt, Nat.sub_diag by lia. done.
Qed.

(** The constructor call allocates one object, fully initialised, and leaves
    every other object and the call log as they are. *)
Lemma GroundTruthBenchmarkMetric_new_spec (w : W) m o :
  heap w !! m = Some o ->
  GroundTruthBenchmarkMetric_new m w
  = (Return (length (heap w)),
     mkWorld (heap w ++ [ground_truth_of m o]) (bridge_calls w)).
Proof.
  intros Hm. destruct w as [h cs]; simpl in *.
  unfold benchmark.GroundTruthBenchmarkMetric_new,
    GroundTruthBenchmarkMetric__init__,
    BenchmarkMetric__init__, BenchmarkMetricBase__init__, new.
  unfold bind; simpl.
  rewrite (deref_Some _ m o) by done.
  rewrite (deref_Some _ m o) by (simpl; by apply lookup_app_l_Some).
  repeat (rewrite setattr_newest; simpl).
  reflexivity.
Qed.

Lemma BenchmarkMetric_new_spec (w : W) n l sd i :
  BenchmarkMetric_new n l sd i w
  = (Return (length (heap w)),
     mkWorld (heap w ++ [mkMetric BenchmarkMetric n l sd i None])
       (bridge_calls w)).
Proof.
  destruct w as [h cs]; simpl.
  unfold benchmark.BenchmarkMetric_new, BenchmarkMetric__init__,
    BenchmarkMetricBase__init__, new.
  unfold bind; simpl.
  repeat (rewrite setattr_newest; simpl).
  reflexivity.
Qed.

(** A method call on a plain [BenchmarkMetric] runs the constructor. *)
Lemma make_ground_truth_metric_observed (w : W) m o :
  heap w !! m = Some o -> py_class o = BenchmarkMetric ->
  make_ground_truth_metric m w
  = (Return (length (heap w)),
     mkWorld (heap w ++ [ground_truth_of m o]) (bridge_calls w)).
Proof.
  intros Hm Hc. unfold benchmark.make_ground_truth_metric.
  rewrite (bind_Return _ _ w w o) by by apply deref_Some.
  rewrite Hc. by apply GroundTruthBenchmarkMetric_new_spec.
Qed.

(** A method call on a [GroundTruthBenchmarkMetric] changes nothing. *)
Lemma make_ground_truth_metric_ground_truth (w : W) m o :
  heap w !! m = Some o -> py_class o = GroundTruthBenchmarkMetric ->
  make_ground_truth_metric m w = (Return m, w).
Proof.
  intros Hm Hc. unfold benchmark.make_ground_truth_metric.
  rewrite (bind_Return _ _ w w o) by by apply deref_Some.
  by rewrite Hc.
Qed.

Lemma lookup_newest (h : list MetricObj) o :
  (h ++ [o])%list !! length h = Some o.
Proof. by rewrite lookup_app_r, Nat.sub_diag by lia. Qed.

(** ** The ground-truth transform *)

(** C1, as amended.  Let [g] be the result of ONE call
    [metric.make_ground_truth_metric()].  Then
    [g.make_ground_truth_metric() is g], and that second call allocates
    nothing.  On a [GroundTruthBenchmarkMetric] the method returns the
    receiver itself, so there the test expression holds as written.  On a
    plain [BenchmarkMetric] every call builds a new wrapper: two calls give
    two distinct objects with equal attributes, and the test expression is
    [False]. *)
Theorem make_ground_truth_metric_idempotent_on_result (w : W) metric o :
  heap w !! metric = Some o ->
  exists g w1,
    make_ground_truth_metric metric w = (Return g, w1)
    /\ make_ground_truth_metric g w1 = (Return g, w1)
    /\ (py_class o = GroundTruthBenchmarkMetric ->
        g = metric /\ w1 = w
        /\ ground_truth_twice_is_once metric w = (Return true, w))
    /\ (py_class o = BenchmarkMetric ->
        exists g' w2,
          make_ground_truth_metric metric w1 = (Return g', w2)
          /\ g' <> g
          /\ heap w2 !! g = Some (ground_truth_of metric o)
          /\ heap w2 !! g' = Some (ground_truth_of metric o)
          /\ ground_truth_twice_is_once metric w = (Return false, w2)).
Proof.
  intros Hm. destruct (py_class o) eqn:Hc.
  - (* a plain metric: the constructor runs *)
    pose proof (make_ground_truth_metric_observed w metric o Hm Hc) as H1.
    set (g := length (heap w)) in *.
    set (w1 := mkWorld (heap w ++ [ground_truth_of metric o])
                 (bridge_calls w)) in *.
    assert (Hg : heap w1 !! g = Some (ground_truth_of metric o))
      by apply lookup_newest.
    assert (Hm1 : heap w1 !! metric = Some o)
      by (simpl; by apply lookup_app_l_Some).
    pose proof (make_ground_truth_metric_ground_truth w1 g _ Hg eq_refl)
      as H2.
    pose proof (make_ground_truth_metric_observed w1 metric o Hm1 Hc) as H3.
    exists g, w1. split; [done|]. split; [done|]. split; [done|].
    intros _. eexists _, _. split; [exact H3|].
    assert (Hlen : length (heap w1) = S g)
      by (simpl; rewrite length_app; simpl; unfold g; lia).
    repeat split.
    + rewrite Hlen. lia.
    + simpl. apply lookup_app_l_Some. apply lookup_newest.
    + simpl. apply (lookup_newest (heap w ++ [_])).
    + unfold benchmark.ground_truth_twice_is_once.
      rewrite (bind_Return _ _ _ _ _ H1), (bind_Return _ _ _ _ _ H2),
        (bind_Return _ _ _ _ _ H3).
      unfold ret. f_equal. f_equal. apply bool_decide_eq_false.
      rewrite Hlen. lia.
  - (* a ground-truth metric: the receiver is returned *)
    pose proof (make_ground_truth_metric_ground_truth w metric o Hm Hc) as H1.
    exists metric, w. split; [done|]. split; [done|]. split; [|done].
    intros _. split; [done|]. split; [done|].
    unfold benchmark.ground_truth_twice_is_once.
    rewrite !(bind_Return _ _ _ _ _ H1).
    unfold ret. f_equal. f_equal. by apply bool_decide_eq_true.
Qed.

(** A call adds at most one object to the heap and changes none that is
    there: the new object is a plain metric made by the client, or the
    ground-truth metric of an object of the heap. *)
Lemma perform_heap (c : Call) (w w' : W) r :
  perform c w = (r, w') ->
  r <> Stuck ->
  heap w' = heap w
  \/ (exists n l sd i,
        heap w' = (heap w ++ [mkMetric BenchmarkMetric n l sd i None])%list)
  \/ (exists m o,
        heap w !! m = Some o
        /\ heap w' = (heap w ++ [ground_truth_of m o])%list).
Proof.
  intros Hrun Hr.
  destruct c as [n l sd i | m | self trial kwargs | self]; simpl in Hrun.
  - unfold bind in Hrun. rewrite BenchmarkMetric_new_spec in Hrun.
    inversion Hrun; subst. right; left. by exists n, l, sd, i.
  - destruct (heap w !! m) as [o|] eqn:Hm.
    + unfold bind in Hrun.
      rewrite (GroundTruthBenchmarkMetric_new_spec w m o Hm) in Hrun.
      inversion Hrun; subst. right; right. by exists m, o.
    + exfalso. apply Hr. revert Hrun.
      unfold benchmark.GroundTruthBenchmarkMetric_new, bind, deref.
      rewrite Hm. by intros [= <- _].
  - left. revert Hrun. unfold benchmark.fetch_trial_data,
      BenchmarkMetric_fetch_trial_data,
      GroundTruthBenchmarkMetric_fetch_trial_data, bind, deref, raise,
      _fetch_trial_data, ret.
    destruct (heap w !! self) as [o|] eqn:Hs; simpl; [|by intros [= _ <-]].
    destruct (py_class o); rewrite Hs; simpl;
      destruct (bool_decide _); simpl; by intros [= _ <-].
  - destruct (heap w !! self) as [o|] eqn:Hs.
    + destruct (py_class o) eqn:Hc; unfold bind in Hrun.
      * rewrite (make_ground_truth_metric_observed w self o Hs Hc) in Hrun.
        inversion Hrun; subst. right; right. by exists self, o.
      * rewrite (make_ground_truth_metric_ground_truth w self o Hs Hc)
          in Hrun.
        inversion Hrun; subst. by left.
    + left. revert Hrun. unfold benchmark.make_ground_truth_metric, bind, deref.
      rewrite Hs. by intros [= _ <-].
Qed.

(** Induction on the heap of a reachable world. *)
Lemma reachable_heap_ind (P : list MetricObj -> Prop) :
  P [] ->
  (forall h n l sd i,
     P h -> P (h ++ [mkMetric BenchmarkMetric n l sd i None])%list) ->
  (forall h m o,
     P h -> h !! m = Some o -> P (h ++ [ground_truth_of m o])%list) ->
  forall w : W, reachable w -> P (heap w).
Proof.
  intros Hnil Hplain Hgt. induction 1 as [|w c r w' _ IH Hrun Hr]; [done|].
  destruct (perform_heap c w w' r Hrun Hr)
    as [-> | [(n & l & sd & i & ->) | (m & o & Hm & ->)]]; auto.
Qed.

(** An object found in a heap that has just grown by one is either an
    object of the old heap or the new one. *)
Ltac older_or_newest H :=
  apply lookup_app_Some in H as [H | [_ H]];
  [|apply list_lookup_singleton_Some in H as [_ <-]].

(** In a reachable world every ground-truth metric is noiseless. *)
Lemma reachable_noiseless (w : W) :
  reachable w ->
  forall g og, heap w !! g = Some og ->
    py_class og = GroundTruthBenchmarkMetric -> observe_noise_sd og = false.
Proof.
  apply (reachable_heap_ind (fun h => forall g og, h !! g = Some og ->
    py_class og = GroundTruthBenchmarkMetric -> observe_noise_sd og = false)).
  - by intros [|?] ?.
  - intros h n l sd i IH g og Hg Hc. older_or_newest Hg.
    + by eapply IH.
    + discriminate Hc.
  - intros h m o IH _ g og Hg Hc. older_or_newest Hg.
    + by eapply IH.
    + done.
Qed.

(** In a reachable world the name of every ground-truth metric is
    [get_ground_truth_name] of the metric its [original_metric] refers to. *)
Lemma reachable_ground_truth_name (w : W) :
  reachable w ->
  forall g og, heap w !! g = Some og ->
    py_class og = GroundTruthBenchmarkMetric ->
    exists m o, original_metric og = Some m /\ heap w !! m = Some o
                /\ name og = get_ground_truth_name o.
Proof.
  apply (reachable_heap_ind (fun h => forall g og, h !! g = Some og ->
    py_class og = GroundTruthBenchmarkMetric ->
    exists m o, original_metric og = Some m /\ h !! m = Some o
                /\ name og = get_ground_truth_name o)).
  - by intros [|?] ?.
  - intros h n l sd i IH g og Hg Hc. older_or_newest Hg.
    + destruct (IH g og Hg Hc) as (m & o & H1 & H2 & H3).
      exists m, o. split; [done|]. split; [by apply lookup_app_l_Some|done].
    + discriminate Hc.
  - intros h m o IH Hm g og Hg Hc. older_or_newest Hg.
    + destruct (IH g og Hg Hc) as (m' & o' & H1 & H2 & H3).
      exists m', o'. split; [done|]. split; [by apply lookup_app_l_Some|done].
    + exists m, o. split; [done|]. split; [by apply lookup_app_l_Some|done].
Qed.

(** C3.  [make_ground_truth_metric] on a plain [BenchmarkMetric] builds a
    [GroundTruthBenchmarkMetric] whose [observe_noise_sd] is [False],
    whatever the flag of the original; and in every world a run of the
    module can reach, every [GroundTruthBenchmarkMetric] in the heap has
    [observe_noise_sd == False], so the same holds of the metric returned
    when the receiver is itself a ground-truth metric. *)
Theorem ground_truth_metric_is_noiseless :
  (forall (w : W) m o,
     heap w !! m = Some o -> py_class o = BenchmarkMetric ->
     exists g w' og,
       make_ground_truth_metric m w = (Return g, w')
       /\ heap w' !! g = Some og
       /\ py_class og = GroundTruthBenchmarkMetric
       /\ observe_noise_sd og = false)
  /\ (forall w : W, reachable w ->
      forall g og, heap w !! g = Some og ->
        py_class og = GroundTruthBenchmarkMetric ->
        observe_noise_sd og = false)
  /\ (forall w : W, reachable w ->
      forall m o, heap w !! m = Some o ->
      exists g w' og,
        make_ground_truth_metric m w = (Return g, w')
        /\ heap w' !! g = Some og
        /\ py_class og = GroundTruthBenchmarkMetric
        /\ observe_noise_sd og = false).
Proof.
  assert (Hobs : forall (w : W) m o,
     heap w !! m = Some o -> py_class o = BenchmarkMetric ->
     exists g w' og,
       make_ground_truth_metric m w = (Return g, w')
       /\ heap w' !! g = Some og
       /\ py_class og = GroundTruthBenchmarkMetric
       /\ observe_noise_sd og = false).
  { intros w m o Hm Hc. eexists _, _, _. split.
    - by apply make_ground_truth_metric_observed.
    - split; [apply lookup_newest|done]. }
  assert (Hinv : forall w : W, reachable w ->
      forall g og, heap w !! g = Some og ->
        py_class og = GroundTruthBenchmarkMetric ->
        observe_noise_sd og = false).
  { apply reachable_noiseless. }
  split; [exact Hobs|]. split; [exact Hinv|].
  intros w Hw m o Hm. destruct (py_class o) eqn:Hc; [by eapply Hobs|].
  exists m, w, o.
  split; [by apply (make_ground_truth_metric_ground_truth w m o)|].
  split; [done|]. split; [done|]. by eapply Hinv.
Qed.

(** C9, as amended.  For two metrics of the same class (both plain
    [BenchmarkMetric], or both [GroundTruthBenchmarkMetric]) with equal
    names, in any two worlds, the metrics returned by
    [make_ground_truth_metric] have equal names.  The ground-truth metric
    built for a plain metric is named [get_ground_truth_name] of that
    metric; in every reachable world, every ground-truth metric is named
    [get_ground_truth_name] of the metric its [original_metric] refers to;
    and [get_ground_truth_name] gives equal names to metrics of equal
    names.  A ground-truth receiver is returned as it is and keeps its own
    name. *)
Theorem ground_truth_name_depends_on_name_only :
  (forall (w1 w2 : W) m1 m2 o1 o2,
     heap w1 !! m1 = Some o1 -> heap w2 !! m2 = Some o2 ->
     py_class o1 = py_class o2 ->
     name o1 = name o2 ->
     exists g1 w1' og1 g2 w2' og2,
       make_ground_truth_metric m1 w1 = (Return g1, w1')
       /\ heap w1' !! g1 = Some og1
       /\ make_ground_truth_metric m2 w2 = (Return g2, w2')
       /\ heap w2' !! g2 = Some og2
       /\ name og1 = name og2)
  /\ (forall (w : W) m o,
        heap w !! m = Some o -> py_class o = BenchmarkMetric ->
        exists g w' og,
          make_ground_truth_metric m w = (Return g, w')
          /\ heap w' !! g = Some og
          /\ name og = get_ground_truth_name o)
  /\ (forall (w : W) m o,
        heap w !! m = Some o -> py_class o = GroundTruthBenchmarkMetric ->
        make_ground_truth_metric m w = (Return m, w))
  /\ (forall w : W, reachable w ->
      forall g og, heap w !! g = Some og ->
        py_class og = GroundTruthBenchmarkMetric ->
        exists m o, original_metric og = Some m /\ heap w !! m = Some o
                    /\ name og = get_ground_truth_name o)
  /\ (forall o1 o2 : MetricObj,
        name o1 = name o2 ->
        get_ground_truth_name o1 = get_ground_truth_name o2).
Proof.
  split; [|split; [|split; [|split]]].
  - intros w1 w2 m1 m2 o1 o2 H1 H2 Hc Hn.
    destruct (py_class o1) eqn:Hc1; symmetry in Hc.
    + eexists _, _, _, _, _, _.
      split; [by apply (make_ground_truth_metric_observed w1 m1 o1)|].
      split; [apply lookup_newest|].
      split; [by apply (make_ground_truth_metric_observed w2 m2 o2)|].
      split; [apply lookup_newest|].
      simpl. unfold benchmark.get_ground_truth_name. by rewrite Hn.
    + exists m1, w1, o1, m2, w2, o2.
      split; [by apply (make_ground_truth_metric_ground_truth w1 m1 o1)|].
      split; [done|].
      split; [by apply (make_ground_truth_metric_ground_truth w2 m2 o2)|].
      done.
  - intros w m o Hm Hc. eexists _, _, _.
    split; [by apply (make_ground_truth_metric_observed w m o)|].
    split; [apply lookup_newest|done].
  - intros w m o Hm Hc.
    by apply (make_ground_truth_metric_ground_truth w m o).
  - apply reachable_ground_truth_name.
  - intros o1 o2 Hn. unfold benchmark.get_ground_truth_name. by rewrite Hn.
Qed.

(** In a reachable world a ground-truth metric was built from an older
    metric, which is still there: its [original_metric] refers to it, and
    its [lower_is_better] and [outcome_index] are those of that metric. *)
Lemma reachable_built_from (w : W) :
  reachable w ->
  forall g og, heap w !! g = Some og ->
    py_class og = GroundTruthBenchmarkMetric ->
    exists m o,
      original_metric og = Some m /\ m < g /\ heap w !! m = Some o
      /\ lower_is_better og = lower_is_better o
      /\ outcome_index og = outcome_index o.
Proof.
  apply (reachable_heap_ind (fun h => forall g og, h !! g = Some og ->
    py_class og = GroundTruthBenchmarkMetric ->
    exists m o,
      original_metric og = Some m /\ m < g /\ h !! m = Some o
      /\ lower_is_better og = lower_is_better o
      /\ outcome_index og = outcome_index o)).
  - by intros [|?] ?.
  - intros h n l sd i IH g og Hg Hc. older_or_newest Hg.
    + destruct (IH g og Hg Hc) as (m & o & H1 & H2 & H3 & H4).
      exists m, o. split; [done|]. split; [done|].
      split; [by apply lookup_app_l_Some|done].
    + discriminate Hc.
  - intros h m o IH Hm g og Hg Hc.
    apply lookup_app_Some in Hg as [Hg | [Hlen Hg]].
    + destruct (IH g og Hg Hc) as (m' & o' & H1 & H2 & H3 & H4).
      exists m', o'. split; [done|]. split; [done|].
      split; [by apply lookup_app_l_Some|done].
    + apply list_lookup_singleton_Some in Hg as [_ <-].
      exists m, o. simpl.
      split; [done|]. split; [|split; [by apply lookup_app_l_Some|done]].
      apply lookup_lt_Some in Hm. lia.
Qed.

(** C10, as amended.  For every metric [m], ground-truth or not,
    [g = m.make_ground_truth_metric()] has the [lower_is_better] and the
    [outcome_index] of [m], and [m] and the call log are left as they were.
    When [m] is a plain [BenchmarkMetric], [g] is a new object: its
    reference was not in use before the call, it is the one object that the
    call adds to the heap, it is a [GroundTruthBenchmarkMetric], and its
    [original_metric] is the reference [m] itself.  When [m] is a
    [GroundTruthBenchmarkMetric], [g] is [m] and nothing is built; in every
    reachable world [g.original_metric] then refers to the metric [m] was
    built from, an older object that is still there and is not [m], whose
    [lower_is_better] and [outcome_index] [m] has. *)
Theorem make_ground_truth_metric_frame (w : W) m o :
  heap w !! m = Some o ->
  exists g w' og,
    make_ground_truth_metric m w = (Return g, w')
    /\ heap w' !! g = Some og
    /\ lower_is_better og = lower_is_better o
    /\ outcome_index og = outcome_index o
    /\ heap w' !! m = Some o
    /\ bridge_calls w' = bridge_calls w
    /\ (py_class o = BenchmarkMetric ->
        py_class og = GroundTruthBenchmarkMetric
        /\ original_metric og = Some m
        /\ g <> m
        /\ heap w !! g = None
        /\ heap w' = (heap w ++ [og])%list)
    /\ (py_class o = GroundTruthBenchmarkMetric ->
        g = m /\ w' = w /\ original_metric og = original_metric o
        /\ (reachable w ->
            exists m0 o0,
              original_metric og = Some m0
              /\ m0 <> m /\ m0 < m
              /\ heap w !! m0 = Some o0
              /\ lower_is_better og = lower_is_better o0
              /\ outcome_index og = outcome_index o0)).
Proof.
  intros Hm. destruct (py_class o) eqn:Hc.
  - eexists _, _, _.
    split; [by apply (make_ground_truth_metric_observed w m o)|].
    split; [apply lookup_newest|]. simpl.
    split; [done|]. split; [done|].
    split; [by apply lookup_app_l_Some|]. split; [done|].
    split; [|done]. intros _. split; [done|]. split; [done|].
    split; [apply lookup_lt_Some in Hm; lia|].
    split; [by apply lookup_ge_None_2|done].
  - exists m, w, o.
    split; [by apply (make_ground_truth_metric_ground_truth w m o)|].
    split; [done|]. split; [done|]. split; [done|]. split; [done|].
    split; [done|]. split; [done|]. intros _.
    split; [done|]. split; [done|]. split; [done|].
    intros Hreach.
    destruct (reachable_built_from w Hreach m o Hm Hc)
      as (m0 & o0 & H1 & H2 & H3 & H4 & H5).
    exists m0, o0. split; [done|]. split; [lia|]. done.
Qed.

(** ** Fetching trial data *)

(** The method that [self.fetch_trial_data] resolves to raises before it
    reads anything else when [kwargs] is not empty. *)
Lemma fetch_trial_data_unfold (w : W) self o trial kwargs :
  heap w !! self = Some o ->
  fetch_trial_data self trial kwargs w
  = if bool_decide (0 < size kwargs)
    then (Raise (NotImplementedError (dom kwargs) (class_name (py_class o))),
          w)
    else _fetch_trial_data bridge_reply trial (name o) (outcome_index o)
           (if is_ground_truth (py_class o) then false
            else observe_noise_sd o)
           (is_ground_truth (py_class o)) w.
Proof.
  intros Hs. unfold benchmark.fetch_trial_data.
  rewrite (bind_Return _ _ w w o) by by apply deref_Some.
  destruct (py_class o) eqn:Hc;
    unfold BenchmarkMetric_fetch_trial_data,
      GroundTruthBenchmarkMetric_fetch_trial_data;
    rewrite (bind_Return _ _ w w o) by (by apply deref_Some);
    rewrite Hc; by destruct (bool_decide _).
Qed.

(** C2.  With at least one extra keyword argument, [fetch_trial_data] on a
    [BenchmarkMetric] or a [GroundTruthBenchmarkMetric] raises at once (the
    code raises Python's [NotImplementedError], the error the spec calls
    UnsupportedArgumentError), naming the arguments and the class of the
    receiver; the world is left as it was, so the Fetch Bridge has not been
    called.  With no extra keyword argument nothing is raised. *)
Theorem fetch_trial_data_rejects_kwargs (w : W) self o trial kwargs :
  heap w !! self = Some o ->
  (kwargs <> ∅ ->
   fetch_trial_data self trial kwargs w
   = (Raise (NotImplementedError (dom kwargs) (class_name (py_class o))), w))
  /\ (kwargs = ∅ ->
      exists r w', fetch_trial_data self trial kwargs w = (Return r, w')).
Proof.
  intros Hs. rewrite (fetch_trial_data_unfold w self o) by done. split.
  - intros Hne. rewrite bool_decide_eq_true_2; [done|].
    apply map_size_non_empty_iff in Hne. lia.
  - intros ->. rewrite bool_decide_eq_false_2.
    + unfold _fetch_trial_data. by eexists _, _.
    + rewrite map_size_empty. lia.
Qed.

(** C4.  With no extra keyword argument, [fetch_trial_data] calls the Fetch
    Bridge exactly once (the call log grows by that one call, the heap is
    unchanged) and returns its answer as it is.  On a [BenchmarkMetric] the
    call is [(trial, self.name, self.outcome_index, self.observe_noise_sd,
    ground_truth=False)]; on a [GroundTruthBenchmarkMetric] it is
    [(trial, self.name, self.outcome_index, include_noise_sd=False,
    ground_truth=True)]. *)
Theorem fetch_trial_data_delegates (w : W) self o trial :
  heap w !! self = Some o ->
  (py_class o = BenchmarkMetric ->
   let c := mkCall trial (name o) (outcome_index o) (observe_noise_sd o)
              false in
   fetch_trial_data self trial ∅ w
   = (Return (bridge_reply (bridge_calls w) c),
      mkWorld (heap w) (bridge_calls w ++ [c])))
  /\ (py_class o = GroundTruthBenchmarkMetric ->
      let c := mkCall trial (name o) (outcome_index o) false true in
      fetch_trial_data self trial ∅ w
      = (Return (bridge_reply (bridge_calls w) c),
         mkWorld (heap w) (bridge_calls w ++ [c]))).
Proof.
  intros Hs. rewrite (fetch_trial_data_unfold w self o) by done.
  rewrite bool_decide_eq_false_2 by (rewrite map_size_empty; lia).
  split; intros ->; reflexivity.
Qed.

(** ** What the calls leave alone *)

(** A call that is [Stuck] has changed nothing. *)
Lemma perform_Stuck (c : Call) (w w' : W) :
  perform c w
  = (Stuck, w') ->
  w' = w.
Proof.
  destruct c as [n l sd i | m | self trial kwargs | self]; simpl;
    unfold bind.
  - by rewrite BenchmarkMetric_new_spec.
  - destruct (heap w !! m) as [o|] eqn:Hm.
    + by rewrite (GroundTruthBenchmarkMetric_new_spec w m o Hm).
    + unfold benchmark.GroundTruthBenchmarkMetric_new, bind, deref.
      rewrite Hm. by intros [= <-].
  - destruct (heap w !! self) as [o|] eqn:Hs.
    + rewrite (fetch_trial_data_unfold w self o) by done.
      by destruct (bool_decide _).
    + unfold benchmark.fetch_trial_data, bind, deref. rewrite Hs.
      by intros [= <-].
  - destruct (heap w !! self) as [o|] eqn:Hs.
    + destruct (py_class o) eqn:Hc.
      * by rewrite (make_ground_truth_metric_observed w self o Hs Hc).
      * by rewrite (make_ground_truth_metric_ground_truth w self o Hs Hc).
    + unfold benchmark.make_ground_truth_metric, bind, deref. rewrite Hs.
      by intros [= <-].
Qed.

(** X1.  No call of the module changes or removes a metric that exists: after
    a constructor call, [make_ground_truth_metric] or [fetch_trial_data],
    whether it returns or raises, every object of the heap is at the same
    reference with the same class and attributes, and the heap has grown by
    at most one object. *)
Theorem perform_keeps_objects (c : Call) (w w' : W) r :
  perform c w = (r, w') ->
  (forall l o, heap w !! l = Some o -> heap w' !! l = Some o)
  /\ length (heap w) <= length (heap w') <= S (length (heap w)).
Proof.
  intros Hrun.
  assert (Hgrow : heap w' = heap w \/ exists x, heap w' = (heap w ++ [x])%list).
  { destruct r as [a | e | ].
    - destruct (perform_heap c w w' _ Hrun)
        as [-> | [(n & l & sd & i & ->) | (m & o & _ & ->)]];
        [done | by left | right | right]; by eexists.
    - destruct (perform_heap c w w' _ Hrun)
        as [-> | [(n & l & sd & i & ->) | (m & o & _ & ->)]];
        [done | by left | right | right]; by eexists.
    - left. by rewrite (perform_Stuck c w w' Hrun). }
  destruct Hgrow as [-> | [x ->]].
  - split; [done | lia].
  - split.
    + intros l o Hl. by apply lookup_app_l_Some.
    + rewrite length_app. simpl. lia.
Qed.

(** X2.  The Fetch Bridge is reached through [fetch_trial_data] only, and
    then exactly once.  The constructors and [make_ground_truth_metric]
    leave the call log as it is.  A call of [fetch_trial_data] that returns
    was made without extra keyword arguments and has added exactly one call
    to the end of the log, the one for the given trial with the name and
    [outcome_index] of the receiver, [observe_noise_sd] of a plain metric
    or [False] for a ground-truth metric as [include_noise_sd], and
    [ground_truth] telling the two classes apart; a call that raises has
    added none. *)
Theorem only_fetch_trial_data_calls_bridge (c : Call) (w w' : W) r :
  perform c w = (r, w') ->
  match c with
  | Call_fetch_trial_data self trial kwargs =>
      match r with
      | Return _ =>
          kwargs = ∅
          /\ exists o,
               heap w !! self = Some o
               /\ bridge_calls w'
                  = (bridge_calls w
                     ++ [mkCall trial (name o) (outcome_index o)
                           (if is_ground_truth (py_class o) then false
                            else observe_noise_sd o)
                           (is_ground_truth (py_class o))])%list
      | _ => bridge_calls w' = bridge_calls w
      end
  | _ => bridge_calls w' = bridge_calls w
  end.
Proof.
  destruct c as [n l sd i | m | self trial kwargs | self]; simpl;
    unfold bind.
  - rewrite BenchmarkMetric_new_spec. by intros [= _ <-].
  - destruct (heap w !! m) as [o|] eqn:Hm.
    + rewrite (GroundTruthBenchmarkMetric_new_spec w m o Hm).
      by intros [= _ <-].
    + unfold benchmark.GroundTruthBenchmarkMetric_new, bind, deref.
      rewrite Hm. by intros [= _ <-].
  - destruct (heap w !! self) as [o|] eqn:Hs.
    + rewrite (fetch_trial_data_unfold w self o) by done.
      destruct (bool_decide (0 < size kwargs)) eqn:Hk.
      * by intros [= <- <-].
      * unfold _fetch_trial_data, ret. intros [= <- <-].
        apply bool_decide_eq_false in Hk. split.
        -- apply map_size_empty_iff. lia.
        -- by exists o.
    + unfold benchmark.fetch_trial_data, bind, deref. rewrite Hs.
      by intros [= <- <-].
  - destruct (heap w !! self) as [o|] eqn:Hs.
    + destruct (py_class o) eqn:Hc.
      * rewrite (make_ground_truth_metric_observed w self o Hs Hc).
        by intros [= _ <-].
      * rewrite (make_ground_truth_metric_ground_truth w self o Hs Hc).
        by intros [= _ <-].
    + unfold benchmark.make_ground_truth_metric, bind, deref. rewrite Hs.
      by intros [= _ <-].
Qed.

(** ** How the calls compose *)

(** X3.  [m.make_ground_truth_metric().fetch_trial_data(trial)], for a plain
    or a ground-truth receiver [m]: the Fetch Bridge is called once, for the
    ground truth ([ground_truth=True]) and without the noise level
    ([include_noise_sd=False], whatever [m.observe_noise_sd] is), under the
    name of the returned metric and with the [outcome_index] of [m]; its
    answer is the result. *)
Theorem ground_truth_metric_fetches_ground_truth (w : W) m o trial :
  heap w !! m = Some o ->
  exists g w1 og,
    make_ground_truth_metric m w = (Return g, w1)
    /\ heap w1 !! g = Some og
    /\ py_class og = GroundTruthBenchmarkMetric
    /\ bind (make_ground_truth_metric m)
         (fun g => fetch_trial_data g trial ∅) w
       = (Return (bridge_reply (bridge_calls w)
                    (mkCall trial (name og) (outcome_index o) false true)),
          mkWorld (heap w1)
            (bridge_calls w
             ++ [mkCall trial (name og) (outcome_index o) false true])).
Proof.
  intros Hm. destruct (py_class o) eqn:Hc.
  - pose proof (make_ground_truth_metric_observed w m o Hm Hc) as Hg.
    eexists _, _, _. split; [exact Hg|].
    split; [apply lookup_newest|]. split; [done|].
    rewrite (bind_Return _ _ _ _ _ Hg).
    rewrite (fetch_trial_data_unfold _ _ (ground_truth_of m o))
      by apply lookup_newest.
    rewrite bool_decide_eq_false_2 by (rewrite map_size_empty; lia).
    reflexivity.
  - pose proof (make_ground_truth_metric_ground_truth w m o Hm Hc) as Hg.
    exists m, w, o. split; [exact Hg|]. split; [done|]. split; [done|].
    rewrite (bind_Return _ _ _ _ _ Hg).
    rewrite (fetch_trial_data_unfold w m o) by done.
    rewrite bool_decide_eq_false_2 by (rewrite map_size_empty; lia).
    rewrite Hc. reflexivity.
Qed.

(** X4.  The constructor does not share the idempotence of the method:
    [GroundTruthBenchmarkMetric(original_metric=g)] on a metric [g] that is
    already a ground-truth metric builds a new object, distinct from [g],
    whose [original_metric] is [g] and which has the [lower_is_better] and
    [outcome_index] of [g], while [g.make_ground_truth_metric()] returns [g]
    and builds nothing. *)
Theorem constructor_wraps_ground_truth_again (w : W) g og :
  heap w !! g = Some og ->
  py_class og = GroundTruthBenchmarkMetric ->
  exists g' w' og',
    GroundTruthBenchmarkMetric_new g w = (Return g', w')
    /\ g' <> g
    /\ heap w' !! g' = Some og'
    /\ py_class og' = GroundTruthBenchmarkMetric
    /\ original_metric og' = Some g
    /\ lower_is_better og' = lower_is_better og
    /\ outcome_index og' = outcome_index og
    /\ observe_noise_sd og' = false
    /\ heap w' !! g = Some og
    /\ make_ground_truth_metric g w = (Return g, w).
Proof.
  intros Hg Hc. eexists _, _, _.
  split; [by apply (GroundTruthBenchmarkMetric_new_spec w g og)|].
  split; [apply lookup_lt_Some in Hg; lia|].
  split; [apply lookup_newest|]. simpl.
  repeat (split; [done|]).
  split; [by apply lookup_app_l_Some|].
  by apply (make_ground_truth_metric_ground_truth w g og).
Qed.

(** X5.  In every state reached through the calls of the module, a plain
    [BenchmarkMetric] has no [original_metric], and the [original_metric]
    of a [GroundTruthBenchmarkMetric] refers to a metric that exists, was
    made before it (so the references never form a cycle) and has the same
    [lower_is_better] and [outcome_index]. *)
Theorem reachable_original_metric (w : W) :
  reachable w ->
  forall g og, heap w !! g = Some og ->
    (py_class og = BenchmarkMetric -> original_metric og = None)
    /\ (py_class og = GroundTruthBenchmarkMetric ->
        exists m o,
          original_metric og = Some m /\ m < g /\ heap w !! m = Some o
          /\ lower_is_better og = lower_is_better o
          /\ outcome_index og = outcome_index o).
Proof.
  apply (reachable_heap_ind (fun h => forall g og, h !! g = Some og ->
    (py_class og = BenchmarkMetric -> original_metric og = None)
    /\ (py_class og = GroundTruthBenchmarkMetric ->
        exists m o,
          original_metric og = Some m /\ m < g /\ h !! m = Some o
          /\ lower_is_better og = lower_is_better o
          /\ outcome_index og = outcome_index o))).
  - by intros [|?] ?.
  - intros h n l sd i IH g og Hg. older_or_newest Hg.
    + destruct (IH g og Hg) as [Hplain Hgt]. split; [done|].
      intros Hc. destruct (Hgt Hc) as (m & o & H1 & H2 & H3 & H4).
      exists m, o. split; [done|]. split; [done|].
      split; [by apply lookup_app_l_Some|done].
    + split; [done|discriminate].
  - intros h m o IH Hm g og Hg.
    apply lookup_app_Some in Hg as [Hg | [Hlen Hg]].
    + destruct (IH g og Hg) as [Hplain Hgt]. split; [done|].
      intros Hc. destruct (Hgt Hc) as (m' & o' & H1 & H2 & H3 & H4).
      exists m', o'. split; [done|]. split; [done|].
      split; [by apply lookup_app_l_Some|done].
    + apply list_lookup_singleton_Some in Hg as [_ <-].
      split; [discriminate|]. intros _. exists m, o. simpl.
      split; [done|]. split; [|split; [by apply lookup_app_l_Some|done]].
      apply lookup_lt_Some in Hm. lia.
Qed.

(** X6.  [BenchmarkMetric(name, lower_is_better, observe_noise_sd,
    outcome_index).fetch_trial_data(trial)]: the Fetch Bridge is called once
    with the [outcome_index] and, as [include_noise_sd], the
    [observe_noise_sd] given to the constructor, under the name of the new
    metric and with [ground_truth=False]; [lower_is_better] is not passed
    on. *)
Theorem new_metric_fetches_with_its_arguments (w : W) n l sd i trial :
  exists self w1 o,
    BenchmarkMetric_new n l sd i w = (Return self, w1)
    /\ heap w1 !! self = Some o
    /\ py_class o = BenchmarkMetric
    /\ observe_noise_sd o = sd
    /\ outcome_index o = i
    /\ lower_is_better o = l
    /\ bind (BenchmarkMetric_new n l sd i)
         (fun self => fetch_trial_data self trial ∅) w
       = (Return (bridge_reply (bridge_calls w)
                    (mkCall trial (name o) i sd false)),
          mkWorld (heap w1)
            (bridge_calls w ++ [mkCall trial (name o) i sd false])).
Proof.
  eexists _, _, _. split; [apply BenchmarkMetric_new_spec|].
  split; [apply lookup_newest|]. simpl. repeat (split; [done|]).
  rewrite (bind_Return _ _ _ _ _ (BenchmarkMetric_new_spec w n l sd i)).
  rewrite (fetch_trial_data_unfold _ _ (mkMetric BenchmarkMetric n l sd i None))
    by apply lookup_newest.
  rewrite bool_decide_eq_false_2 by (rewrite map_size_empty; lia).
  reflexivity.
Qed.

End benchmark_properties.

(** ** The properties on the example run *)

Section example_run.

Import benchmark example.

Lemma world_accuracy_eq :
  world_accuracy
  = mkWorld [mkMetric BenchmarkMetric "accuracy" false true None None] [].
Proof. reflexivity. Qed.

Lemma world_ground_truth_eq :
  world_ground_truth
  = mkWorld [mkMetric BenchmarkMetric "accuracy" false true None None;
             mkMetric GroundTruthBenchmarkMetric "accuracy__GROUND_TRUTH"
               false false None (Some 0)] [].
Proof. reflexivity. Qed.

Lemma world_same_name_eq :
  world_same_name
  = mkWorld [mkMetric BenchmarkMetric "accuracy" false true None None;
             mkMetric GroundTruthBenchmarkMetric "accuracy__GROUND_TRUTH"
               false false None (Some 0);
             mkMetric BenchmarkMetric "accuracy__GROUND_TRUTH" false true
               None None] [].
Proof. reflexivity. Qed.

(** C1 fails as stated: for the plain metric [accuracy], the expression
    [accuracy.make_ground_truth_metric().make_ground_truth_metric()
       is accuracy.make_ground_truth_metric()]
    is [False].  The two calls on [accuracy] build objects 1 and 2. *)
Lemma ground_truth_twice_is_not_once :
  bind make_accuracy (ground_truth_twice_is_once unset prefix suffix) start
  = (Return false,
     mkWorld [mkMetric BenchmarkMetric "accuracy" false true None None;
              mkMetric GroundTruthBenchmarkMetric "accuracy__GROUND_TRUTH"
                false false None (Some 0);
              mkMetric GroundTruthBenchmarkMetric "accuracy__GROUND_TRUTH"
                false false None (Some 0)] []).
Proof. reflexivity. Qed.

Lemma make_ground_truth_metric_idempotent_on_result_witness :
  heap world_accuracy !! 0 = Some (mkMetric BenchmarkMetric "accuracy" false
                                     true None None)
  /\ exists g w1,
       make_ground_truth_metric unset prefix suffix 0 world_accuracy
       = (Return g, w1)
       /\ make_ground_truth_metric unset prefix suffix g w1 = (Return g, w1).
Proof.
  split; [reflexivity|].
  destruct (make_ground_truth_metric_idempotent_on_result unset prefix suffix
              world_accuracy 0 _ eq_refl) as (g & w1 & H1 & H2 & _).
  exists g, w1. split; assumption.
Defined.

Lemma world_ground_truth_reachable :
  reachable unset reply prefix suffix world_ground_truth.
Proof.
  apply (reachable_call unset reply prefix suffix world_accuracy
           (Call_make_ground_truth_metric 0) (Return tt));
    [|reflexivity|discriminate].
  apply (reachable_call unset reply prefix suffix start
           (Call_BenchmarkMetric "accuracy" false true None) (Return tt));
    [apply reachable_start|reflexivity|discriminate].
Defined.

Lemma ground_truth_metric_is_noiseless_witness :
  observe_noise_sd <$> heap world_accuracy !! 0 = Some true
  /\ (exists g w' og,
        make_ground_truth_metric unset prefix suffix 0 world_accuracy
        = (Return g, w')
        /\ heap w' !! g = Some og
        /\ py_class og = GroundTruthBenchmarkMetric
        /\ observe_noise_sd og = false)
  /\ (exists og,
        heap world_ground_truth !! 1 = Some og
        /\ py_class og = GroundTruthBenchmarkMetric
        /\ observe_noise_sd og = false).
Proof.
  destruct (ground_truth_metric_is_noiseless (BaseTrial := Trial) unset reply
              prefix suffix) as (Hobs & Hinv & _).
  split; [reflexivity|]. split.
  - apply (Hobs world_accuracy 0 _ eq_refl eq_refl).
  - eexists. split; [reflexivity|]. split; [reflexivity|].
    apply (Hinv world_ground_truth world_ground_truth_reachable 1 _ eq_refl
             eq_refl).
Defined.

(** C9 fails as stated: objects 2 (a plain [BenchmarkMetric]) and 1 (a
    [GroundTruthBenchmarkMetric]) have the same name, and the metrics that
    [make_ground_truth_metric] returns for them have different names. *)
Lemma same_name_different_ground_truth_name :
  name <$> heap world_same_name !! 2 = name <$> heap world_same_name !! 1
  /\ exists w',
       make_ground_truth_metric unset prefix suffix 2 world_same_name
       = (Return 3, w')
       /\ name <$> heap w' !! 3
          = Some "accuracy__GROUND_TRUTH__GROUND_TRUTH"
       /\ make_ground_truth_metric unset prefix suffix 1 world_same_name
          = (Return 1, world_same_name)
       /\ name <$> heap world_same_name !! 1
          = Some "accuracy__GROUND_TRUTH".
Proof. split; [reflexivity|]. eexists. repeat split; reflexivity. Qed.

Lemma ground_truth_name_depends_on_name_only_witness :
  (exists g1 w1' og1 g2 w2' og2,
     make_ground_truth_metric unset prefix suffix 0 world_accuracy
     = (Return g1, w1')
     /\ heap w1' !! g1 = Some og1
     /\ make_ground_truth_metric unset prefix suffix 0 world_same_name
        = (Return g2, w2')
     /\ heap w2' !! g2 = Some og2
     /\ name og1 = name og2)
  /\ (exists m o,
        heap world_ground_truth !! m = Some o
        /\ get_ground_truth_name prefix suffix o = "accuracy__GROUND_TRUTH").
Proof.
  destruct (ground_truth_name_depends_on_name_only (BaseTrial := Trial)
              unset reply prefix suffix) as (Hsame & _ & _ & Hinv & _).
  split.
  - apply (Hsame world_accuracy world_same_name 0 0 _ _ eq_refl eq_refl
             eq_refl eq_refl).
  - destruct (Hinv world_ground_truth world_ground_truth_reachable 1 _
                eq_refl eq_refl) as (m & o & _ & Hm & Hname).
    exists m, o. split; [exact Hm|]. symmetry. exact Hname.
Defined.

(** C10 fails as stated: object 1 is a [GroundTruthBenchmarkMetric], hence a
    [BenchmarkMetric]; [make_ground_truth_metric] returns it as it is, and
    its [original_metric] is object 0, not object 1 itself. *)
Lemma ground_truth_receiver_keeps_original_metric :
  py_class <$> heap world_ground_truth !! 1 = Some GroundTruthBenchmarkMetric
  /\ make_ground_truth_metric unset prefix suffix 1 world_ground_truth
     = (Return 1, world_ground_truth)
  /\ original_metric <$> heap world_ground_truth !! 1 = Some (Some 0)
  /\ original_metric <$> heap world_ground_truth !! 1 <> Some (Some 1).
Proof. repeat split; try reflexivity. discriminate. Qed.

Lemma make_ground_truth_metric_frame_witness :
  (exists g w' og,
     make_ground_truth_metric unset prefix suffix 0 world_accuracy
     = (Return g, w')
     /\ heap w' !! g = Some og
     /\ lower_is_better og = false
     /\ outcome_index og = None
     /\ original_metric og = Some 0
     /\ heap world_accuracy !! g = None)
  /\ (exists m0 o0,
        original_metric <$> heap world_ground_truth !! 1 = Some (Some m0)
        /\ m0 <> 1
        /\ heap world_ground_truth !! m0 = Some o0).
Proof.
  split.
  - destruct (make_ground_truth_metric_frame unset reply prefix suffix
                world_accuracy 0 _ eq_refl)
      as (g & w' & og & H1 & H2 & H3 & H4 & _ & _ & Hobs & _).
    destruct (Hobs eq_refl) as (_ & H5 & _ & H6 & _).
    exists g, w', og. repeat split; assumption.
  - destruct (make_ground_truth_metric_frame unset reply prefix suffix
                world_ground_truth 1 _ eq_refl)
      as (g & w' & og & H1 & H2 & _ & _ & _ & _ & _ & Hgt).
    destruct (Hgt eq_refl) as (-> & -> & _ & Hbuilt).
    destruct (Hbuilt world_ground_truth_reachable)
      as (m0 & o0 & H3 & H4 & _ & H5 & _).
    vm_compute in H2. injection H2 as <-.
    simpl in H3. injection H3 as <-.
    exists 0, o0. repeat split; [assumption|assumption].
Defined.

Lemma fetch_trial_data_rejects_kwargs_witness :
  extra_kw <> ∅
  /\ fetch_trial_data reply 1 7 extra_kw world_ground_truth
     = (Raise (NotImplementedError {[ "extra_kw" ]}
                 "GroundTruthBenchmarkMetric"), world_ground_truth)
  /\ exists r w',
       fetch_trial_data reply 1 7 ∅ world_ground_truth = (Return r, w').
Proof.
  assert (Hne : extra_kw <> ∅).
  { intros H. apply (f_equal (fun m => m !! "extra_kw")) in H.
    discriminate H. }
  split; [exact Hne|].
  destruct (fetch_trial_data_rejects_kwargs reply world_ground_truth 1 _ 7
              extra_kw eq_refl) as [Hraise _].
  destruct (fetch_trial_data_rejects_kwargs reply world_ground_truth 1 _ 7
              ∅ eq_refl) as [_ Hok].
  split.
  - rewrite (Hraise Hne). unfold extra_kw. rewrite dom_singleton_L.
    reflexivity.
  - apply Hok. reflexivity.
Defined.

Lemma fetch_trial_data_delegates_witness :
  fetch_trial_data reply 0 7 ∅ world_ground_truth
  = (Return [("0_0", 0%Z)],
     mkWorld (heap world_ground_truth) [mkCall 7 "accuracy" None true false])
  /\ fetch_trial_data reply 1 7 ∅ world_ground_truth
     = (Return [("0_0", 0%Z)],
        mkWorld (heap world_ground_truth)
          [mkCall 7 "accuracy__GROUND_TRUTH" None false true]).
Proof.
  split.
  - destruct (fetch_trial_data_delegates reply world_ground_truth 0 _ 7
                eq_refl) as [H _].
    apply (H eq_refl).
  - destruct (fetch_trial_data_delegates reply world_ground_truth 1 _ 7
                eq_refl) as [_ H].
    apply (H eq_refl).
Defined.

Lemma perform_keeps_objects_witness :
  perform unset reply prefix suffix (Call_make_ground_truth_metric 0) world_accuracy
  = (Return tt, world_ground_truth)
  /\ heap world_ground_truth !! 0
     = Some (mkMetric BenchmarkMetric "accuracy" false true None None)
  /\ length (heap world_ground_truth) <= 2.
Proof.
  destruct (perform_keeps_objects unset reply prefix suffix
              (Call_make_ground_truth_metric 0) world_accuracy
              world_ground_truth (Return tt) eq_refl) as [Hkeep [_ Hlen]].
  split; [reflexivity|]. split; [|exact Hlen].
  apply (Hkeep 0 _ eq_refl).
Defined.

Lemma only_fetch_trial_data_calls_bridge_witness :
  perform unset reply prefix suffix (Call_fetch_trial_data 1 7 ∅)
    world_ground_truth
  = (Return tt,
     mkWorld (heap world_ground_truth)
       [mkCall 7 "accuracy__GROUND_TRUTH" None false true])
  /\ perform unset reply prefix suffix (Call_fetch_trial_data 1 7 extra_kw)
       world_ground_truth
     = (Raise (NotImplementedError {[ "extra_kw" ]}
                 "GroundTruthBenchmarkMetric"), world_ground_truth)
  /\ bridge_calls (perform unset reply prefix suffix
                     (Call_make_ground_truth_metric 0) world_accuracy).2
     = [].
Proof.
  assert (Hfetch :
    perform unset reply prefix suffix (Call_fetch_trial_data 1 7 ∅)
      world_ground_truth
    = (Return tt,
       mkWorld (heap world_ground_truth)
         [mkCall 7 "accuracy__GROUND_TRUTH" None false true]))
    by reflexivity.
  assert (Hraise :
    perform unset reply prefix suffix (Call_fetch_trial_data 1 7 extra_kw)
      world_ground_truth
    = (Raise (NotImplementedError {[ "extra_kw" ]}
                "GroundTruthBenchmarkMetric"), world_ground_truth)).
  { unfold perform, bind.
    rewrite (fetch_trial_data_unfold reply world_ground_truth 1 _ 7 extra_kw
               eq_refl).
    unfold extra_kw. rewrite dom_singleton_L. reflexivity. }
  split; [exact Hfetch|]. split; [exact Hraise|].
  pose proof (only_fetch_trial_data_calls_bridge unset reply prefix suffix
                (Call_fetch_trial_data 1 7 ∅) world_ground_truth _ _ Hfetch)
    as [_ (o & _ & _)].
  apply (only_fetch_trial_data_calls_bridge unset reply prefix suffix
           (Call_make_ground_truth_metric 0) world_accuracy _ _ eq_refl).
Defined.

Lemma ground_truth_metric_fetches_ground_truth_witness :
  bind (make_ground_truth_metric unset prefix suffix 0)
    (fun g => fetch_trial_data reply g 7 ∅) world_accuracy
  = (Return [("0_0", 0%Z)],
     mkWorld (heap world_ground_truth)
       [mkCall 7 "accuracy__GROUND_TRUTH" None false true]).
Proof.
  destruct (ground_truth_metric_fetches_ground_truth unset reply prefix suffix
              world_accuracy 0 _ 7 eq_refl)
    as (g & w1 & og & Hg & Hog & _ & Hrun).
  assert (Hc : make_ground_truth_metric unset prefix suffix 0 world_accuracy
               = (Return 1, world_ground_truth)) by reflexivity.
  rewrite Hc in Hg. injection Hg as <- <-.
  vm_compute in Hog. injection Hog as <-.
  exact Hrun.
Defined.

Lemma constructor_wraps_ground_truth_again_witness :
  exists g' w' og',
    GroundTruthBenchmarkMetric_new unset prefix suffix 1 world_ground_truth
    = (Return g', w')
    /\ g' <> 1
    /\ heap w' !! g' = Some og'
    /\ original_metric og' = Some 1
    /\ make_ground_truth_metric unset prefix suffix 1 world_ground_truth
       = (Return 1, world_ground_truth).
Proof.
  destruct (constructor_wraps_ground_truth_again unset prefix suffix
              world_ground_truth 1 _ eq_refl eq_refl)
    as (g' & w' & og' & H1 & H2 & H3 & _ & H4 & _ & _ & _ & _ & H5).
  exists g', w', og'. repeat split; assumption.
Defined.

Lemma reachable_original_metric_witness :
  exists m o,
    heap world_ground_truth !! 1
    = Some (mkMetric GroundTruthBenchmarkMetric "accuracy__GROUND_TRUTH"
              false false None (Some m))
    /\ m < 1 /\ heap world_ground_truth !! m = Some o
    /\ lower_is_better o = false /\ outcome_index o = None.
Proof.
  destruct (reachable_original_metric unset reply prefix suffix world_ground_truth
              world_ground_truth_reachable 1 _ eq_refl) as [_ Hgt].
  destruct (Hgt eq_refl) as (m & o & H1 & H2 & H3 & H4 & H5).
  exists m, o. simpl in H1. injection H1 as <-.
  repeat split; try assumption; by symmetry.
Defined.

End example_run.

(** * Properties of registry.py *)

Section registry_properties.

Import registry.

(** No item of the four dictionary displays overwrites an earlier one: each
    table has as many entries as its display has items. *)
Lemma registry_sizes :
  length CORE_ENCODER_REGISTRY = 54
  /\ length CORE_CLASS_ENCODER_REGISTRY = 7
  /\ length CORE_DECODER_REGISTRY = 75
  /\ length CORE_CLASS_DECODER_REGISTRY = 7.
Proof. repeat split; vm_compute; reflexivity. Qed.

(** C5.  The exact-type encoder registry and the class encoder registry have
    no key in common. *)
Theorem encoder_registries_disjoint (T : PyClass) :
  T ∈ dict_keys CORE_ENCODER_REGISTRY ->
  T ∉ dict_keys CORE_CLASS_ENCODER_REGISTRY.
Proof.
  revert T. apply Forall_forall.
  compute_done.
Qed.

(** C6.  Every class that is a key of the encoder registry is the target of
    a decoder registry entry, and the name of that entry is the [__name__]
    of the class: a document tagged with the name of the class of the
    encoded object is resolved to that class. *)
Theorem encoder_keys_have_decoder_names (T : PyClass) :
  T ∈ dict_keys CORE_ENCODER_REGISTRY ->
  dict_get (class_name T) CORE_DECODER_REGISTRY = Some T.
Proof.
  revert T. apply Forall_forall.
  compute_done.
Qed.

(** C7.  Every key of the class decoder registry has the form
    ["Type[<BaseName>]"]; for every key [B] of the class encoder registry,
    ["Type[" ++ B.__name__ ++ "]"] is a key of the class decoder registry;
    and every key of the class decoder registry is obtained in this way from
    a key of the class encoder registry. *)
Theorem class_registries_match :
  (forall k, k ∈ dict_keys CORE_CLASS_DECODER_REGISTRY ->
     exists base, k = "Type[" ++ base ++ "]")
  /\ (forall B, B ∈ dict_keys CORE_CLASS_ENCODER_REGISTRY ->
        class_reference_name B ∈ dict_keys CORE_CLASS_DECODER_REGISTRY)
  /\ (forall k, k ∈ dict_keys CORE_CLASS_DECODER_REGISTRY ->
        exists B, B ∈ dict_keys CORE_CLASS_ENCODER_REGISTRY
                  /\ k = class_reference_name B).
Proof.
  assert (Hback : forall k, k ∈ dict_keys CORE_CLASS_DECODER_REGISTRY ->
            exists B, B ∈ dict_keys CORE_CLASS_ENCODER_REGISTRY
                      /\ k = class_reference_name B).
  { intros k Hk.
    assert (H : Forall (fun k =>
                  Exists (fun B => k = class_reference_name B)
                    (dict_keys CORE_CLASS_ENCODER_REGISTRY))
                  (dict_keys CORE_CLASS_DECODER_REGISTRY))
      by compute_done.
    rewrite Forall_forall in H. apply H in Hk.
    apply Exists_exists in Hk as (B & HB & ->). by exists B. }
  split; [|split; [|exact Hback]].
  - intros k Hk. destruct (Hback k Hk) as (B & _ & ->).
    by exists (class_name B).
  - apply Forall_forall. compute_done.
Qed.

Lemma encoder_registries_disjoint_witness :
  Arm ∈ dict_keys CORE_ENCODER_REGISTRY
  /\ Arm ∉ dict_keys CORE_CLASS_ENCODER_REGISTRY.
Proof.
  assert (H : Arm ∈ dict_keys CORE_ENCODER_REGISTRY)
    by compute_done.
  split; [exact H|]. apply (encoder_registries_disjoint Arm H).
Defined.

Lemma encoder_keys_have_decoder_names_witness :
  BraninMetric ∈ dict_keys CORE_ENCODER_REGISTRY
  /\ dict_get "BraninMetric" CORE_DECODER_REGISTRY = Some BraninMetric.
Proof.
  assert (H : BraninMetric ∈ dict_keys CORE_ENCODER_REGISTRY)
    by compute_done.
  split; [exact H|]. apply (encoder_keys_have_decoder_names BraninMetric H).
Defined.

Lemma class_registries_match_witness :
  Transform ∈ dict_keys CORE_CLASS_ENCODER_REGISTRY
  /\ "Type[Transform]" ∈ dict_keys CORE_CLASS_DECODER_REGISTRY
  /\ exists B, B ∈ dict_keys CORE_CLASS_ENCODER_REGISTRY
               /\ "Type[Model]" = class_reference_name B.
Proof.
  destruct class_registries_match as (_ & Hfwd & Hback).
  assert (H : Transform ∈ dict_keys CORE_CLASS_ENCODER_REGISTRY)
    by compute_done.
  split; [exact H|]. split.
  - apply (Hfwd Transform H).
  - apply (Hback "Type[Model]").
    compute_done.
Defined.

(** ** Further invariants of the tables *)

(** A value found under a key is an item of the dictionary. *)
Lemma dict_get_elem_of {K V} `{EqDecision K} (k : K) (v : V) (d : dict K V) :
  dict_get k d = Some v -> (k, v) ∈ d.
Proof.
  induction d as [|[k' v'] d IH]; simpl; [done|].
  destruct (decide (k = k')) as [->|_].
  - intros [= ->]. apply list_elem_of_here.
  - intros H. apply list_elem_of_further. by apply IH.
Qed.

(** X7.  Every entry of the decoder registry is registered under the
    [__name__] of its target class, so no class is the target of two
    names. *)
Theorem decoder_names_are_class_names (n : string) (T : PyClass) :
  dict_get n CORE_DECODER_REGISTRY = Some T ->
  class_name T = n
  /\ (forall n', dict_get n' CORE_DECODER_REGISTRY = Some T -> n' = n).
Proof.
  assert (Htable : Forall (fun entry => class_name entry.2 = entry.1)
                     CORE_DECODER_REGISTRY) by compute_done.
  rewrite Forall_forall in Htable.
  intros Hn. split.
  - apply (Htable (n, T)). by apply dict_get_elem_of.
  - intros n' Hn'.
    pose proof (Htable (n, T) (dict_get_elem_of _ _ _ Hn)) as H1.
    pose proof (Htable (n', T) (dict_get_elem_of _ _ _ Hn')) as H2.
    simpl in H1, H2. congruence.
Qed.

(** X8.  The instance path and the class path do not meet: no name of the
    decoder registry begins with ["Type["] or is a key of the class decoder
    registry, and no function of the class encoder registry is used in the
    encoder registry. *)
Theorem instance_and_class_tables_are_separate :
  (forall n T,
     dict_get n CORE_DECODER_REGISTRY = Some T ->
     String.prefix "Type[" n = false
     /\ dict_get n CORE_CLASS_DECODER_REGISTRY = None)
  /\ (forall B encode_fn,
        dict_get B CORE_CLASS_ENCODER_REGISTRY = Some encode_fn ->
        forall T, dict_get T CORE_ENCODER_REGISTRY <> Some encode_fn).
Proof.
  split.
  - assert (Htable : Forall (fun entry =>
              String.prefix "Type[" entry.1 = false
              /\ dict_get entry.1 CORE_CLASS_DECODER_REGISTRY = None)
              CORE_DECODER_REGISTRY) by compute_done.
    rewrite Forall_forall in Htable.
    intros n T Hn. apply (Htable (n, T)). by apply dict_get_elem_of.
  - assert (Htable : Forall (fun class_entry =>
              Forall (fun entry => entry.2 <> class_entry.2)
                CORE_ENCODER_REGISTRY)
              CORE_CLASS_ENCODER_REGISTRY) by compute_done.
    rewrite Forall_forall in Htable.
    intros B encode_fn HB T HT.
    apply dict_get_elem_of in HB, HT.
    specialize (Htable _ HB). rewrite Forall_forall in Htable.
    by apply (Htable _ HT).
Qed.

(** X9.  The two class tables pair the functions consistently: the class
    decoder registered for ["Type[" ++ B.__name__ ++ "]"] is
    [transform_type_from_json] when the class encoder registered for [B] is
    [transform_type_to_dict], which is the case for [Transform] only, and
    [class_from_json] when it is [botorch_modular_to_dict], which is the
    case for every other key. *)
Theorem class_encoders_and_decoders_are_paired (B : PyClass)
    (encode_fn : PyFunction) :
  dict_get B CORE_CLASS_ENCODER_REGISTRY = Some encode_fn ->
  (B = Transform
   /\ encode_fn = transform_type_to_dict
   /\ dict_get (class_reference_name B) CORE_CLASS_DECODER_REGISTRY
      = Some transform_type_from_json)
  \/ (B <> Transform
      /\ encode_fn = botorch_modular_to_dict
      /\ dict_get (class_reference_name B) CORE_CLASS_DECODER_REGISTRY
         = Some class_from_json).
Proof.
  assert (Htable : Forall (fun entry =>
            (entry.1 = Transform
             /\ entry.2 = transform_type_to_dict
             /\ dict_get (class_reference_name entry.1)
                  CORE_CLASS_DECODER_REGISTRY
                = Some transform_type_from_json)
            \/ (entry.1 <> Transform
                /\ entry.2 = botorch_modular_to_dict
                /\ dict_get (class_reference_name entry.1)
                     CORE_CLASS_DECODER_REGISTRY
                   = Some class_from_json))
            CORE_CLASS_ENCODER_REGISTRY) by compute_done.
  rewrite Forall_forall in Htable.
  intros HB. apply (Htable (B, encode_fn)). by apply dict_get_elem_of.
Qed.

Lemma decoder_names_are_class_names_witness :
  dict_get "TrialStatus" CORE_DECODER_REGISTRY = Some TrialStatus
  /\ class_name TrialStatus = "TrialStatus".
Proof.
  assert (H : dict_get "TrialStatus" CORE_DECODER_REGISTRY = Some TrialStatus)
    by reflexivity.
  split; [exact H|].
  destruct (decoder_names_are_class_names "TrialStatus" TrialStatus H)
    as [Hname _].
  exact Hname.
Defined.

Lemma instance_and_class_tables_are_separate_witness :
  dict_get "Metric" CORE_CLASS_DECODER_REGISTRY = None
  /\ dict_get Metric CORE_ENCODER_REGISTRY <> Some botorch_modular_to_dict.
Proof.
  destruct instance_and_class_tables_are_separate as [Hdec Henc].
  split.
  - apply (Hdec "Metric" Metric eq_refl).
  - apply (Henc Model botorch_modular_to_dict eq_refl Metric).
Defined.

Lemma class_encoders_and_decoders_are_paired_witness :
  dict_get Transform CORE_CLASS_ENCODER_REGISTRY = Some transform_type_to_dict
  /\ dict_get "Type[Transform]" CORE_CLASS_DECODER_REGISTRY
     = Some transform_type_from_json.
Proof.
  assert (H : dict_get Transform CORE_CLASS_ENCODER_REGISTRY
              = Some transform_type_to_dict) by reflexivity.
  split; [exact H|].
  destruct (class_encoders_and_decoders_are_paired Transform _ H)
    as [(_ & _ & Hdec) | (Hne & _)].
  - exact Hdec.
  - by destruct Hne.
Defined.

End registry_properties.
